(** * The headless map renderer bridge ([include/map_renderer.h])

    A shallow embedding of the C++ bridge [mln::bridge::MapRenderer] and of
    the free functions [MapRenderer_new], [MapRenderer_render],
    [MapRenderer_setDebugFlags], [MapRenderer_setCamera] and
    [MapRenderer_setStyleUrl].

    The bridge is a thin layer over the map engine ([mbgl]).  The engine
    is not part of the header: whatever the engine decides on its own (whether
    a constructor throws, which pixels a render pass produces, which bytes
    the PNG codec emits) is a variable of the development, and every
    theorem holds for all of its values. *)

From Stdlib Require Import Floats.SpecFloat.
From stdpp Require Import base option list strings pretty gmap.

Open Scope string_scope.
Open Scope list_scope.

(** ** Scalars of the interface *)

(** [uint32_t]: no arithmetic is done on widths and heights here, so the
    naturals stand for the unsigned values. *)
Abbreviation uint32_t := N (only parsing).

(** [float] and [double] values are only moved around by the bridge; they
    are kept as IEEE 754 data (zero, infinity, NaN, finite with mantissa and
    exponent) and never computed with. *)
Abbreviation float := spec_float (only parsing).
Abbreviation double := spec_float (only parsing).

(** [mbgl::MapMode]. *)
Inductive MapMode := Continuous | Static | Tile.

(** [mbgl::MapDebugOptions] is an enum of bit flags; a value is a bitmask. *)
Abbreviation MapDebugOptions := N (only parsing).

(** [mbgl::Size]. *)
Record Size := { size_width : uint32_t; size_height : uint32_t }.

(** Method chaining [o.f(x).g(y)] reads [o |> f x |> g y]. *)
Notation "o |> f" := (f o) (at level 45, left associativity, only parsing).

(** ** Tile server options *)

(** [mbgl::util::DefaultStyle(url, name, version)]. *)
Record DefaultStyle := {
  ds_url : string;
  ds_name : string;
  ds_version : Z
}.

(** Modelled from the spec: the type of the third argument of the five
    [with*Template] setters is declared in the engine's headers, which are
    not part of the source; the spec describes it as the set of extra
    placeholders of the template, and the source passes the empty
    initialiser [{}]. *)
Abbreviation Placeholders := (list string) (only parsing).

(** The setters of [mbgl::TileServerOptions] that the bridge calls, as an
    interface: the bridge is written once against it and read through two
    instances below. *)
Class TileServerOptionsAPI (T : Type) := {
  TileServerOptions_new : T;
  withBaseURL : string -> T -> T;
  withUriSchemeAlias : string -> T -> T;
  withApiKeyParameterName : string -> T -> T;
  withSourceTemplate : string -> string -> Placeholders -> T -> T;
  withStyleTemplate : string -> string -> Placeholders -> T -> T;
  withSpritesTemplate : string -> string -> Placeholders -> T -> T;
  withGlyphsTemplate : string -> string -> Placeholders -> T -> T;
  withTileTemplate : string -> string -> Placeholders -> T -> T;
  withDefaultStyles : list DefaultStyle -> T -> T;
  withDefaultStyle : string -> T -> T;
  setRequiresApiKey : bool -> T -> T
}.

(** *** First instance: the journal of setter calls

    Nothing is assumed about the engine: an options value is the list of the
    calls that built it, oldest first. *)
Inductive TsoCall :=
  | Call_withBaseURL (url : string)
  | Call_withUriSchemeAlias (alias : string)
  | Call_withApiKeyParameterName (name : string)
  | Call_withSourceTemplate (tpl segment : string) (extra : Placeholders)
  | Call_withStyleTemplate (tpl segment : string) (extra : Placeholders)
  | Call_withSpritesTemplate (tpl segment : string) (extra : Placeholders)
  | Call_withGlyphsTemplate (tpl segment : string) (extra : Placeholders)
  | Call_withTileTemplate (tpl segment : string) (extra : Placeholders)
  | Call_withDefaultStyles (styles : list DefaultStyle)
  | Call_withDefaultStyle (name : string)
  | Call_setRequiresApiKey (b : bool).

Definition TsoJournal := list TsoCall.

#[export] Instance journal_api : TileServerOptionsAPI TsoJournal := {|
  TileServerOptions_new := [];
  withBaseURL s j := j ++ [Call_withBaseURL s];
  withUriSchemeAlias s j := j ++ [Call_withUriSchemeAlias s];
  withApiKeyParameterName s j := j ++ [Call_withApiKeyParameterName s];
  withSourceTemplate t d e j := j ++ [Call_withSourceTemplate t d e];
  withStyleTemplate t d e j := j ++ [Call_withStyleTemplate t d e];
  withSpritesTemplate t d e j := j ++ [Call_withSpritesTemplate t d e];
  withGlyphsTemplate t d e j := j ++ [Call_withGlyphsTemplate t d e];
  withTileTemplate t d e j := j ++ [Call_withTileTemplate t d e];
  withDefaultStyles l j := j ++ [Call_withDefaultStyles l];
  withDefaultStyle n j := j ++ [Call_withDefaultStyle n];
  setRequiresApiKey b j := j ++ [Call_setRequiresApiKey b]
|}.

(** A call that touches the default styles: registration of the list or
    selection by name. *)
Definition is_default_style_call (c : TsoCall) : bool :=
  match c with
  | Call_withDefaultStyles _ | Call_withDefaultStyle _ => true
  | _ => false
  end.

(** A call that installs one of the five URL templates. *)
Definition is_template_call (c : TsoCall) : bool :=
  match c with
  | Call_withSourceTemplate _ _ _ | Call_withStyleTemplate _ _ _
  | Call_withSpritesTemplate _ _ _ | Call_withGlyphsTemplate _ _ _
  | Call_withTileTemplate _ _ _ => true
  | _ => false
  end.

(** *** Second instance: the configuration the engine ends up with *)

(** One URL template with the two values installed beside it. *)
Record UrlTemplate := {
  ut_template : string;
  ut_segment : string;
  ut_extra : Placeholders
}.

Record TileServerOptions := {
  tso_baseURL : string;
  tso_uriSchemeAlias : string;
  tso_apiKeyParameterName : string;
  tso_sourceTemplate : UrlTemplate;
  tso_styleTemplate : UrlTemplate;
  tso_spritesTemplate : UrlTemplate;
  tso_glyphsTemplate : UrlTemplate;
  tso_tileTemplate : UrlTemplate;
  tso_defaultStyles : list DefaultStyle;
  tso_defaultStyle : string;
  tso_requiresApiKey : bool
}.

Definition no_template : UrlTemplate :=
  {| ut_template := ""; ut_segment := ""; ut_extra := [] |}.

(** Is a style of that name registered? *)
Definition style_registered (name : string) (styles : list DefaultStyle) : bool :=
  existsb (fun s => String.eqb (ds_name s) name) styles.

Module Tso.

(** Modelled from the spec: the engine's tile server options are not in
    the source.  Per the spec they are built by independent setters, one
    field each, except the selection of the default style, which resolves
    its argument by matching the names of the styles registered so far.
    This is the value before any setter ran; the bridge overwrites every
    field of it. *)
Definition empty : TileServerOptions :=
  {| tso_baseURL := ""; tso_uriSchemeAlias := ""; tso_apiKeyParameterName := "";
     tso_sourceTemplate := no_template; tso_styleTemplate := no_template;
     tso_spritesTemplate := no_template; tso_glyphsTemplate := no_template;
     tso_tileTemplate := no_template;
     tso_defaultStyles := []; tso_defaultStyle := ""; tso_requiresApiKey := false |}.

(** Modelled from the spec: independent setter of the base URL. *)
Definition set_baseURL (s : string) (t : TileServerOptions) :=
  {| tso_baseURL := s; tso_uriSchemeAlias := tso_uriSchemeAlias t;
     tso_apiKeyParameterName := tso_apiKeyParameterName t;
     tso_sourceTemplate := tso_sourceTemplate t; tso_styleTemplate := tso_styleTemplate t;
     tso_spritesTemplate := tso_spritesTemplate t; tso_glyphsTemplate := tso_glyphsTemplate t;
     tso_tileTemplate := tso_tileTemplate t;
     tso_defaultStyles := tso_defaultStyles t; tso_defaultStyle := tso_defaultStyle t;
     tso_requiresApiKey := tso_requiresApiKey t |}.

(** Modelled from the spec: independent setter of the URI scheme alias. *)
Definition set_uriSchemeAlias (s : string) (t : TileServerOptions) :=
  {| tso_baseURL := tso_baseURL t; tso_uriSchemeAlias := s;
     tso_apiKeyParameterName := tso_apiKeyParameterName t;
     tso_sourceTemplate := tso_sourceTemplate t; tso_styleTemplate := tso_styleTemplate t;
     tso_spritesTemplate := tso_spritesTemplate t; tso_glyphsTemplate := tso_glyphsTemplate t;
     tso_tileTemplate := tso_tileTemplate t;
     tso_defaultStyles := tso_defaultStyles t; tso_defaultStyle := tso_defaultStyle t;
     tso_requiresApiKey := tso_requiresApiKey t |}.

(** Modelled from the spec: independent setter of the API key parameter name. *)
Definition set_apiKeyParameterName (s : string) (t : TileServerOptions) :=
  {| tso_baseURL := tso_baseURL t; tso_uriSchemeAlias := tso_uriSchemeAlias t;
     tso_apiKeyParameterName := s;
     tso_sourceTemplate := tso_sourceTemplate t; tso_styleTemplate := tso_styleTemplate t;
     tso_spritesTemplate := tso_spritesTemplate t; tso_glyphsTemplate := tso_glyphsTemplate t;
     tso_tileTemplate := tso_tileTemplate t;
     tso_defaultStyles := tso_defaultStyles t; tso_defaultStyle := tso_defaultStyle t;
     tso_requiresApiKey := tso_requiresApiKey t |}.

(** Modelled from the spec: independent setter of the source template. *)
Definition set_sourceTemplate (u : UrlTemplate) (t : TileServerOptions) :=
  {| tso_baseURL := tso_baseURL t; tso_uriSchemeAlias := tso_uriSchemeAlias t;
     tso_apiKeyParameterName := tso_apiKeyParameterName t;
     tso_sourceTemplate := u; tso_styleTemplate := tso_styleTemplate t;
     tso_spritesTemplate := tso_spritesTemplate t; tso_glyphsTemplate := tso_glyphsTemplate t;
     tso_tileTemplate := tso_tileTemplate t;
     tso_defaultStyles := tso_defaultStyles t; tso_defaultStyle := tso_defaultStyle t;
     tso_requiresApiKey := tso_requiresApiKey t |}.

(** Modelled from the spec: independent setter of the style template. *)
Definition set_styleTemplate (u : UrlTemplate) (t : TileServerOptions) :=
  {| tso_baseURL := tso_baseURL t; tso_uriSchemeAlias := tso_uriSchemeAlias t;
     tso_apiKeyParameterName := tso_apiKeyParameterName t;
     tso_sourceTemplate := tso_sourceTemplate t; tso_styleTemplate := u;
     tso_spritesTemplate := tso_spritesTemplate t; tso_glyphsTemplate := tso_glyphsTemplate t;
     tso_tileTemplate := tso_tileTemplate t;
     tso_defaultStyles := tso_defaultStyles t; tso_defaultStyle := tso_defaultStyle t;
     tso_requiresApiKey := tso_requiresApiKey t |}.

(** Modelled from the spec: independent setter of the sprites template. *)
Definition set_spritesTemplate (u : UrlTemplate) (t : TileServerOptions) :=
  {| tso_baseURL := tso_baseURL t; tso_uriSchemeAlias := tso_uriSchemeAlias t;
     tso_apiKeyParameterName := tso_apiKeyParameterName t;
     tso_sourceTemplate := tso_sourceTemplate t; tso_styleTemplate := tso_styleTemplate t;
     tso_spritesTemplate := u; tso_glyphsTemplate := tso_glyphsTemplate t;
     tso_tileTemplate := tso_tileTemplate t;
     tso_defaultStyles := tso_defaultStyles t; tso_defaultStyle := tso_defaultStyle t;
     tso_requiresApiKey := tso_requiresApiKey t |}.

(** Modelled from the spec: independent setter of the glyphs template. *)
Definition set_glyphsTemplate (u : UrlTemplate) (t : TileServerOptions) :=
  {| tso_baseURL := tso_baseURL t; tso_uriSchemeAlias := tso_uriSchemeAlias t;
     tso_apiKeyParameterName := tso_apiKeyParameterName t;
     tso_sourceTemplate := tso_sourceTemplate t; tso_styleTemplate := tso_styleTemplate t;
     tso_spritesTemplate := tso_spritesTemplate t; tso_glyphsTemplate := u;
     tso_tileTemplate := tso_tileTemplate t;
     tso_defaultStyles := tso_defaultStyles t; tso_defaultStyle := tso_defaultStyle t;
     tso_requiresApiKey := tso_requiresApiKey t |}.

(** Modelled from the spec: independent setter of the tile template. *)
Definition set_tileTemplate (u : UrlTemplate) (t : TileServerOptions) :=
  {| tso_baseURL := tso_baseURL t; tso_uriSchemeAlias := tso_uriSchemeAlias t;
     tso_apiKeyParameterName := tso_apiKeyParameterName t;
     tso_sourceTemplate := tso_sourceTemplate t; tso_styleTemplate := tso_styleTemplate t;
     tso_spritesTemplate := tso_spritesTemplate t; tso_glyphsTemplate := tso_glyphsTemplate t;
     tso_tileTemplate := u;
     tso_defaultStyles := tso_defaultStyles t; tso_defaultStyle := tso_defaultStyle t;
     tso_requiresApiKey := tso_requiresApiKey t |}.

(** Modelled from the spec: registration of the list of default styles. *)
Definition set_defaultStyles (l : list DefaultStyle) (t : TileServerOptions) :=
  {| tso_baseURL := tso_baseURL t; tso_uriSchemeAlias := tso_uriSchemeAlias t;
     tso_apiKeyParameterName := tso_apiKeyParameterName t;
     tso_sourceTemplate := tso_sourceTemplate t; tso_styleTemplate := tso_styleTemplate t;
     tso_spritesTemplate := tso_spritesTemplate t; tso_glyphsTemplate := tso_glyphsTemplate t;
     tso_tileTemplate := tso_tileTemplate t;
     tso_defaultStyles := l; tso_defaultStyle := tso_defaultStyle t;
     tso_requiresApiKey := tso_requiresApiKey t |}.

(** Modelled from the spec: selection of the default style by name; it
    resolves by matching the registered names and selects nothing when no
    registered style has that name. *)
Definition select_defaultStyle (name : string) (t : TileServerOptions) :=
  if style_registered name (tso_defaultStyles t) then
    {| tso_baseURL := tso_baseURL t; tso_uriSchemeAlias := tso_uriSchemeAlias t;
       tso_apiKeyParameterName := tso_apiKeyParameterName t;
       tso_sourceTemplate := tso_sourceTemplate t; tso_styleTemplate := tso_styleTemplate t;
       tso_spritesTemplate := tso_spritesTemplate t; tso_glyphsTemplate := tso_glyphsTemplate t;
       tso_tileTemplate := tso_tileTemplate t;
       tso_defaultStyles := tso_defaultStyles t; tso_defaultStyle := name;
       tso_requiresApiKey := tso_requiresApiKey t |}
  else t.

(** Modelled from the spec: independent setter of the API key requirement. *)
Definition set_requiresApiKey (b : bool) (t : TileServerOptions) :=
  {| tso_baseURL := tso_baseURL t; tso_uriSchemeAlias := tso_uriSchemeAlias t;
     tso_apiKeyParameterName := tso_apiKeyParameterName t;
     tso_sourceTemplate := tso_sourceTemplate t; tso_styleTemplate := tso_styleTemplate t;
     tso_spritesTemplate := tso_spritesTemplate t; tso_glyphsTemplate := tso_glyphsTemplate t;
     tso_tileTemplate := tso_tileTemplate t;
     tso_defaultStyles := tso_defaultStyles t; tso_defaultStyle := tso_defaultStyle t;
     tso_requiresApiKey := b |}.

End Tso.

(** The path segment and the extra placeholders installed with each of the
    five templates, in the order source, style, sprites, glyphs, tile. *)
Definition template_literals (t : TileServerOptions) : list (string * Placeholders) :=
  [ (ut_segment (tso_sourceTemplate t), ut_extra (tso_sourceTemplate t));
    (ut_segment (tso_styleTemplate t), ut_extra (tso_styleTemplate t));
    (ut_segment (tso_spritesTemplate t), ut_extra (tso_spritesTemplate t));
    (ut_segment (tso_glyphsTemplate t), ut_extra (tso_glyphsTemplate t));
    (ut_segment (tso_tileTemplate t), ut_extra (tso_tileTemplate t)) ].

Definition mk_template (t d : string) (e : Placeholders) : UrlTemplate :=
  {| ut_template := t; ut_segment := d; ut_extra := e |}.

#[export] Instance options_api : TileServerOptionsAPI TileServerOptions := {|
  TileServerOptions_new := Tso.empty;
  withBaseURL := Tso.set_baseURL;
  withUriSchemeAlias := Tso.set_uriSchemeAlias;
  withApiKeyParameterName := Tso.set_apiKeyParameterName;
  withSourceTemplate t d e := Tso.set_sourceTemplate (mk_template t d e);
  withStyleTemplate t d e := Tso.set_styleTemplate (mk_template t d e);
  withSpritesTemplate t d e := Tso.set_spritesTemplate (mk_template t d e);
  withGlyphsTemplate t d e := Tso.set_glyphsTemplate (mk_template t d e);
  withTileTemplate t d e := Tso.set_tileTemplate (mk_template t d e);
  withDefaultStyles := Tso.set_defaultStyles;
  withDefaultStyle := Tso.select_defaultStyle;
  setRequiresApiKey := Tso.set_requiresApiKey
|}.

(** *** The bridge's assembly of the tile server options
    ([MapRenderer_new], the [styles] vector and the [options] chain) *)

Definition default_styles (defaultStyleUrl : string) : list DefaultStyle :=
  [ {| ds_url := defaultStyleUrl; ds_name := "Basic"; ds_version := 1 |} ].

Definition tile_server_options {T} `{TileServerOptionsAPI T}
    (baseUrl uriSchemeAlias apiKeyParameterName
     sourceTemplate styleTemplate spritesTemplate glyphsTemplate tileTemplate
     defaultStyleUrl : string) (requiresApiKey : bool) : T :=
  let styles := default_styles defaultStyleUrl in
  TileServerOptions_new
    |> withBaseURL baseUrl
    |> withUriSchemeAlias uriSchemeAlias
    |> withApiKeyParameterName apiKeyParameterName
    |> withSourceTemplate sourceTemplate "" []
    |> withStyleTemplate styleTemplate "maps" []
    |> withSpritesTemplate spritesTemplate "" []
    |> withGlyphsTemplate glyphsTemplate "fonts" []
    |> withTileTemplate tileTemplate "tiles" []
    |> withDefaultStyles styles
    |> withDefaultStyle "Basic"
    |> setRequiresApiKey requiresApiKey.

(** ** Resource options and map options *)

Record ResourceOptions := {
  ro_cachePath : string;
  ro_assetPath : string;
  ro_apiKey : string;
  ro_tileServerOptions : TileServerOptions
}.

Record MapOptions := {
  mo_mapMode : MapMode;
  mo_size : Size;
  mo_pixelRatio : float
}.

Module Ro.

(** Modelled from the spec: the engine's [ResourceOptions] are not in the
    source; per the spec they hold a cache path, an asset path, an API key
    and the tile server configuration, each set by its setter.  This is the
    default-constructed value; the bridge overwrites every field of it. *)
Definition empty : ResourceOptions :=
  {| ro_cachePath := ""; ro_assetPath := ""; ro_apiKey := "";
     ro_tileServerOptions := Tso.empty |}.

(** Modelled from the spec: setter of the cache path. *)
Definition withCachePath (s : string) (r : ResourceOptions) :=
  {| ro_cachePath := s; ro_assetPath := ro_assetPath r; ro_apiKey := ro_apiKey r;
     ro_tileServerOptions := ro_tileServerOptions r |}.

(** Modelled from the spec: setter of the asset path. *)
Definition withAssetPath (s : string) (r : ResourceOptions) :=
  {| ro_cachePath := ro_cachePath r; ro_assetPath := s; ro_apiKey := ro_apiKey r;
     ro_tileServerOptions := ro_tileServerOptions r |}.

(** Modelled from the spec: setter of the API key. *)
Definition withApiKey (s : string) (r : ResourceOptions) :=
  {| ro_cachePath := ro_cachePath r; ro_assetPath := ro_assetPath r; ro_apiKey := s;
     ro_tileServerOptions := ro_tileServerOptions r |}.

(** Modelled from the spec: setter of the embedded tile server configuration. *)
Definition withTileServerOptions (t : TileServerOptions) (r : ResourceOptions) :=
  {| ro_cachePath := ro_cachePath r; ro_assetPath := ro_assetPath r;
     ro_apiKey := ro_apiKey r; ro_tileServerOptions := t |}.

End Ro.

Module Mo.

(** The binary32 value 1.0. *)
Definition one : float := S754_finite false 8388608 (-23).

(** Modelled from the spec: the engine's [MapOptions] are not in the
    source; per the spec they hold the mode, the size and the pixel ratio.
    This is the default-constructed value; the bridge overwrites every
    field of it. *)
Definition empty : MapOptions :=
  {| mo_mapMode := Continuous;
     mo_size := {| size_width := 64; size_height := 64 |};
     mo_pixelRatio := one |}.

(** Modelled from the spec: setter of the mode. *)
Definition withMapMode (m : MapMode) (o : MapOptions) :=
  {| mo_mapMode := m; mo_size := mo_size o; mo_pixelRatio := mo_pixelRatio o |}.

(** Modelled from the spec: setter of the size. *)
Definition withSize (s : Size) (o : MapOptions) :=
  {| mo_mapMode := mo_mapMode o; mo_size := s; mo_pixelRatio := mo_pixelRatio o |}.

(** Modelled from the spec: setter of the pixel ratio, passed through
    unmodified. *)
Definition withPixelRatio (p : float) (o : MapOptions) :=
  {| mo_mapMode := mo_mapMode o; mo_size := mo_size o; mo_pixelRatio := p |}.

End Mo.

(** [MapRenderer_new], the [resourceOptions] statement. *)
Definition resource_options (cachePath assetRoot apiKey : string)
    (options : TileServerOptions) : ResourceOptions :=
  Ro.empty
    |> Ro.withCachePath cachePath
    |> Ro.withAssetPath assetRoot
    |> Ro.withApiKey apiKey
    |> Ro.withTileServerOptions options.

(** [MapRenderer_new], the [mapOptions] statement. *)
Definition map_options (mapMode : MapMode) (size : Size) (pixelRatio : float)
    : MapOptions :=
  Mo.empty |> Mo.withMapMode mapMode |> Mo.withSize size |> Mo.withPixelRatio pixelRatio.

(** ** Camera *)

(** Modelled from the spec: [mbgl::LatLng{lat, lon}] is the engine's; per
    the spec the values are passed through without range validation, so the
    value built is the pair as given. *)
Record LatLng := { latitude : double; longitude : double }.

(** Modelled from the spec: [mbgl::CameraOptions] is the engine's; the
    bridge sets a centre, a zoom, a bearing and a pitch on a
    default-constructed value.  Each component is optional, none is set at
    first, and a [with*] setter sets the one it names. *)
Record CameraOptions := {
  co_center : option LatLng;
  co_zoom : option double;
  co_bearing : option double;
  co_pitch : option double
}.

Module Co.

(** Modelled from the spec: the default-constructed options, nothing set. *)
Definition empty : CameraOptions :=
  {| co_center := None; co_zoom := None; co_bearing := None; co_pitch := None |}.

(** Modelled from the spec: setter of the centre. *)
Definition withCenter (c : LatLng) (o : CameraOptions) :=
  {| co_center := Some c; co_zoom := co_zoom o; co_bearing := co_bearing o;
     co_pitch := co_pitch o |}.

(** Modelled from the spec: setter of the zoom. *)
Definition withZoom (z : double) (o : CameraOptions) :=
  {| co_center := co_center o; co_zoom := Some z; co_bearing := co_bearing o;
     co_pitch := co_pitch o |}.

(** Modelled from the spec: setter of the bearing. *)
Definition withBearing (b : double) (o : CameraOptions) :=
  {| co_center := co_center o; co_zoom := co_zoom o; co_bearing := Some b;
     co_pitch := co_pitch o |}.

(** Modelled from the spec: setter of the pitch. *)
Definition withPitch (p : double) (o : CameraOptions) :=
  {| co_center := co_center o; co_zoom := co_zoom o; co_bearing := co_bearing o;
     co_pitch := Some p |}.

End Co.

(** Modelled from the spec: the camera state a map holds. *)
Record Camera := {
  cam_center : LatLng;
  cam_zoom : double;
  cam_bearing : double;
  cam_pitch : double
}.

(** Modelled from the spec: the engine's [Map::jumpTo] is not in the source;
    per the spec it repositions the view at once to the given components,
    replacing the prior camera state.  A component the options leave unset
    keeps its value. *)
Definition jump (o : CameraOptions) (c : Camera) : Camera :=
  {| cam_center := default (cam_center c) (co_center o);
     cam_zoom := default (cam_zoom c) (co_zoom o);
     cam_bearing := default (cam_bearing c) (co_bearing o);
     cam_pitch := default (cam_pitch c) (co_pitch o) |}.

(** ** Engine objects *)

(** Addresses of heap objects; a [std::unique_ptr<T>] is the address of
    a [T] in the store of [T] objects. *)
Abbreviation loc := positive (only parsing).

(** [MapObserver::nullObserver()] is the engine's observer that ignores
    every notification; any other observer is one an embedder supplies. *)
Inductive MapObserver := nullObserver | embedderObserver (id : N).

(** Modelled from the spec: the style state of a map, the document it was
    last told to load. *)
Record Style := { style_url : string }.

(** Modelled from the spec: [mbgl::HeadlessFrontend], the offscreen
    surface, sized at construction with a pixel ratio. *)
Record HeadlessFrontend := {
  hf_size : Size;
  hf_pixelRatio : float
}.

(** Modelled from the spec: [mbgl::Map], the stateful engine entity
    holding camera, style and debug state.  It is bound by reference to the
    frontend and the observer it was constructed with and keeps the two
    option values. *)
Record Map := {
  map_frontend : loc;
  map_observer : MapObserver;
  map_mapOptions : MapOptions;
  map_resourceOptions : ResourceOptions;
  map_camera : Camera;
  map_debug : MapDebugOptions;
  map_style : Style
}.

Definition Map_with_camera (c : Camera) (m : Map) : Map :=
  {| map_frontend := map_frontend m; map_observer := map_observer m;
     map_mapOptions := map_mapOptions m; map_resourceOptions := map_resourceOptions m;
     map_camera := c; map_debug := map_debug m; map_style := map_style m |}.

Definition Map_with_debug (d : MapDebugOptions) (m : Map) : Map :=
  {| map_frontend := map_frontend m; map_observer := map_observer m;
     map_mapOptions := map_mapOptions m; map_resourceOptions := map_resourceOptions m;
     map_camera := map_camera m; map_debug := d; map_style := map_style m |}.

Definition Map_with_style (s : Style) (m : Map) : Map :=
  {| map_frontend := map_frontend m; map_observer := map_observer m;
     map_mapOptions := map_mapOptions m; map_resourceOptions := map_resourceOptions m;
     map_camera := map_camera m; map_debug := map_debug m; map_style := s |}.

(** [mbgl::util::RunLoop]: the bridge default-constructs it and never
    touches it again. *)
Inductive RunLoop := RunLoop_default.

(** [class MapRenderer]: the three public members, in declaration order. *)
Record MapRenderer := {
  runLoop : RunLoop;
  frontend : loc;
  map : loc
}.

(** ** The engine as the bridge sees it *)

Section Bridge.

(** What the engine decides on its own.  [Env] is everything outside the
    three object stores (network, GPU, allocator); [exception] is whatever
    the engine throws; a render pass yields a raster of type
    [PremultipliedImage]. *)
Variable Env : Type.
Variable exception : Type.
Variable PremultipliedImage : Type.

(** [HeadlessFrontend::render] returns a result whose [image] member the
    bridge reads. *)
Record RenderResult := { image : PremultipliedImage }.

(** Does a constructor throw, and what? *)
Variable frontend_fault : Size -> float -> Env -> option exception.
Variable map_fault : MapOptions -> ResourceOptions -> Env -> option exception.
Variable runloop_fault : Env -> option exception.

(** The state a map starts in. *)
Variable initial_camera : Camera.
Variable initial_debug : MapDebugOptions.
Variable initial_style : Style.

(** One render pass of a map on a frontend: a frame or an exception, and
    what it leaves of the environment. *)
Variable render_pass :
  HeadlessFrontend -> Map -> Env -> (exception + RenderResult) * Env.

(** [mbgl::encodePNG]. *)
Variable encodePNG : PremultipliedImage -> exception + string.

(** *** The journal of engine calls *)

Inductive EngineCall :=
  | Call_HeadlessFrontend (size : Size) (pixelRatio : float)
  | Call_Map (fe : loc) (observer : MapObserver)
             (mapOptions : MapOptions) (resourceOptions : ResourceOptions)
  | Call_RunLoop
  | Call_render (fe mp : loc)
  | Call_encodePNG (img : PremultipliedImage)
  | Call_setDebug (mp : loc) (debugFlags : MapDebugOptions)
  | Call_jumpTo (mp : loc) (camera : CameraOptions)
  | Call_loadURL (mp : loc) (url : string).

(** *** The world: three object stores, the environment, the journal *)

Record World := {
  frontends : gmap loc HeadlessFrontend;
  maps : gmap loc Map;
  renderers : gmap loc MapRenderer;
  env : Env;
  calls : list EngineCall
}.

Definition with_frontends (h : gmap loc HeadlessFrontend) (w : World) : World :=
  {| frontends := h; maps := maps w; renderers := renderers w;
     env := env w; calls := calls w |}.

Definition with_maps (h : gmap loc Map) (w : World) : World :=
  {| frontends := frontends w; maps := h; renderers := renderers w;
     env := env w; calls := calls w |}.

Definition with_renderers (h : gmap loc MapRenderer) (w : World) : World :=
  {| frontends := frontends w; maps := maps w; renderers := h;
     env := env w; calls := calls w |}.

Definition with_env (e : Env) (w : World) : World :=
  {| frontends := frontends w; maps := maps w; renderers := renderers w;
     env := e; calls := calls w |}.

Definition with_calls (l : list EngineCall) (w : World) : World :=
  {| frontends := frontends w; maps := maps w; renderers := renderers w;
     env := env w; calls := l |}.

(** *** Computations: a state monad with C++ exceptions

    A call returns, throws, or is undefined (a reference to an object that
    is not there).  Effects made before a throw stay. *)

Inductive outcome (A : Type) :=
  | Returned (a : A)
  | Thrown (e : exception)
  | Undefined.
Arguments Returned {A} a.
Arguments Thrown {A} e.
Arguments Undefined {A}.

Definition M (A : Type) : Type := World -> outcome A * World.

Definition ret {A} (a : A) : M A := fun w => (Returned a, w).

Definition bind {A B} (c : M A) (k : A -> M B) : M B := fun w =>
  match c w with
  | (Returned a, w') => k a w'
  | (Thrown e, w') => (Thrown e, w')
  | (Undefined, w') => (Undefined, w')
  end.

Definition throw {A} (e : exception) : M A := fun w => (Thrown e, w).

(** Stack unwinding: when [c] throws, the owners in scope run their
    destructors ([cleanup]) and the exception travels on. *)
Definition unwinding {A} (c : M A) (cleanup : World -> World) : M A := fun w =>
  match c w with
  | (Thrown e, w') => (Thrown e, cleanup w')
  | r => r
  end.

Notation "x <- c ;; k" := (bind c (fun x => k))
  (at level 100, c at next level, right associativity, only parsing).
Notation "c ;;; k" := (bind c (fun _ => k))
  (at level 100, right associativity, only parsing).

Definition journal (c : EngineCall) : M unit := fun w =>
  (Returned tt, with_calls (calls w ++ [c]) w).

(** *** Engine primitives *)

(** [std::make_unique<mbgl::HeadlessFrontend>(size, pixelRatio)].
    Modelled from the spec: the engine allocates the offscreen frontend
    with that size and that pixel ratio, or fails. *)
Definition HeadlessFrontend_make (size : Size) (pixelRatio : float) : M loc :=
  journal (Call_HeadlessFrontend size pixelRatio) ;;;
  fun w =>
    match frontend_fault size pixelRatio (env w) with
    | Some e => (Thrown e, w)
    | None =>
        let l := fresh (dom (frontends w)) in
        (Returned l,
         with_frontends
           (<[l := {| hf_size := size; hf_pixelRatio := pixelRatio |}]> (frontends w)) w)
    end.

(** [std::make_unique<mbgl::Map>] on the frontend behind [fe], the
    observer and the two option values.  Modelled from the spec: the
    engine allocates the map object bound to that frontend, or fails. *)
Definition Map_make (fe : loc) (observer : MapObserver)
    (mapOptions : MapOptions) (resourceOptions : ResourceOptions) : M loc :=
  fun w =>
    match frontends w !! fe with
    | None => (Undefined, w)
    | Some _ =>
        (journal (Call_Map fe observer mapOptions resourceOptions) ;;;
         fun w =>
           match map_fault mapOptions resourceOptions (env w) with
           | Some e => (Thrown e, w)
           | None =>
               let l := fresh (dom (maps w)) in
               (Returned l,
                with_maps
                  (<[l := {| map_frontend := fe; map_observer := observer;
                             map_mapOptions := mapOptions;
                             map_resourceOptions := resourceOptions;
                             map_camera := initial_camera;
                             map_debug := initial_debug;
                             map_style := initial_style |}]> (maps w)) w)
           end) w
    end.

(** [std::make_unique<MapRenderer>(std::move(frontend), std::move(map))]:
    the constructor default-constructs [runLoop] and takes the two
    pointers over. *)
Definition MapRenderer_make (fe mp : loc) : M loc :=
  journal Call_RunLoop ;;;
  fun w =>
    match runloop_fault (env w) with
    | Some e => (Thrown e, w)
    | None =>
        let l := fresh (dom (renderers w)) in
        (Returned l,
         with_renderers
           (<[l := {| runLoop := RunLoop_default; frontend := fe; map := mp |}]>
              (renderers w)) w)
    end.

(** Destructor of an owned frontend: the object is gone from the store. *)
Definition HeadlessFrontend_delete (l : loc) (w : World) : World :=
  with_frontends (delete l (frontends w)) w.

(** Destructor of an owned map. *)
Definition Map_delete (l : loc) (w : World) : World :=
  with_maps (delete l (maps w)) w.

(** [self] as a reference: the object must be there. *)
Definition deref_renderer (self : loc) : M MapRenderer := fun w =>
  match renderers w !! self with
  | Some r => (Returned r, w)
  | None => (Undefined, w)
  end.

(** A method call on the map behind a pointer that changes the map. *)
Definition update_map (mp : loc) (f : Map -> Map) : M unit := fun w =>
  match maps w !! mp with
  | Some m => (Returned tt, with_maps (<[mp := f m]> (maps w)) w)
  | None => (Undefined, w)
  end.

(** [HeadlessFrontend::render] of the frontend behind [fe] on the map
    behind [mp].  Modelled from the spec: a render pass reads the instance
    (it is mutated by the three setters only); what it yields and what it
    does to the environment is the engine's. *)
Definition HeadlessFrontend_render (fe mp : loc) : M RenderResult := fun w =>
  match frontends w !! fe, maps w !! mp with
  | Some f, Some m =>
      (journal (Call_render fe mp) ;;;
       fun w =>
         match render_pass f m (env w) with
         | (inl e, env') => (Thrown e, with_env env' w)
         | (inr r, env') => (Returned r, with_env env' w)
         end) w
  | _, _ => (Undefined, w)
  end.

(** [encodePNG(image)]. *)
Definition encodePNG_call (img : PremultipliedImage) : M string :=
  journal (Call_encodePNG img) ;;;
  match encodePNG img with
  | inl e => throw e
  | inr png => ret png
  end.

(** Modelled from the spec: [Map::setDebug] is the engine's; per the spec
    it sets the bitmask of debug options, replacing the flags set before. *)
Definition Map_setDebug (mp : loc) (debugFlags : MapDebugOptions) : M unit :=
  journal (Call_setDebug mp debugFlags) ;;;
  update_map mp (Map_with_debug debugFlags).

(** Modelled from the spec: [Map::jumpTo] is the engine's; per the spec it
    replaces the camera at once ([jump]). *)
Definition Map_jumpTo (mp : loc) (camera : CameraOptions) : M unit :=
  journal (Call_jumpTo mp camera) ;;;
  update_map mp (fun m => Map_with_camera (jump camera (map_camera m)) m).

(** Modelled from the spec: [Map::getStyle] and [Style::loadURL] are the
    engine's; per the spec the style of the map is replaced by the document
    at the URL, whose loading starts. *)
Definition Style_loadURL (mp : loc) (url : string) : M unit :=
  journal (Call_loadURL mp url) ;;;
  update_map mp (Map_with_style {| style_url := url |}).

(** ** The bridge *)

(** [MapRenderer_new]. *)
Definition MapRenderer_new
    (mapMode : MapMode) (width height : uint32_t) (pixelRatio : float)
    (cachePath assetRoot apiKey baseUrl uriSchemeAlias apiKeyParameterName
     sourceTemplate styleTemplate spritesTemplate glyphsTemplate tileTemplate
     defaultStyleUrl : string) (requiresApiKey : bool) : M loc :=
  let size := {| size_width := width; size_height := height |} in
  fe <- HeadlessFrontend_make size pixelRatio ;;
  let options : TileServerOptions :=
    tile_server_options baseUrl uriSchemeAlias apiKeyParameterName
      sourceTemplate styleTemplate spritesTemplate glyphsTemplate tileTemplate
      defaultStyleUrl requiresApiKey in
  let resourceOptions := resource_options cachePath assetRoot apiKey options in
  let mapOptions := map_options mapMode size pixelRatio in
  mp <- unwinding (Map_make fe nullObserver mapOptions resourceOptions)
          (HeadlessFrontend_delete fe) ;;
  unwinding (MapRenderer_make fe mp)
    (fun w => HeadlessFrontend_delete fe (Map_delete mp w)).

(** [MapRenderer_render]. *)
Definition MapRenderer_render (self : loc) : M string :=
  r <- deref_renderer self ;;
  res <- HeadlessFrontend_render (frontend r) (map r) ;;
  encodePNG_call (image res).

(** [MapRenderer_setDebugFlags]. *)
Definition MapRenderer_setDebugFlags (self : loc) (debugFlags : MapDebugOptions)
    : M unit :=
  r <- deref_renderer self ;;
  Map_setDebug (map r) debugFlags.

(** [MapRenderer_setCamera]. *)
Definition MapRenderer_setCamera (self : loc)
    (lat lon zoom bearing pitch : double) : M unit :=
  r <- deref_renderer self ;;
  let cameraOptions :=
    Co.empty
      |> Co.withCenter {| latitude := lat; longitude := lon |}
      |> Co.withZoom zoom
      |> Co.withBearing bearing
      |> Co.withPitch pitch in
  Map_jumpTo (map r) cameraOptions.

(** [MapRenderer_setStyleUrl]. *)
Definition MapRenderer_setStyleUrl (self : loc) (styleUrl : string) : M unit :=
  r <- deref_renderer self ;;
  Style_loadURL (map r) styleUrl.

(** ** Views and invariants *)

(** The instance behind [self] with the two objects it points to. *)
Definition instance_view (w : World) (self : loc)
    : option (MapRenderer * HeadlessFrontend * Map) :=
  match renderers w !! self with
  | Some r =>
      match frontends w !! frontend r, maps w !! map r with
      | Some f, Some m => Some (r, f, m)
      | _, _ => None
      end
  | None => None
  end.

(** No pointer held by a stored object dangles. *)
Definition wf_world (w : World) : Prop :=
  (forall l r, renderers w !! l = Some r ->
     is_Some (frontends w !! frontend r) /\ is_Some (maps w !! map r))
  /\ (forall l m, maps w !! l = Some m -> is_Some (frontends w !! map_frontend m)).

(** Number of render passes in a journal. *)
Definition render_passes (cs : list EngineCall) : nat :=
  length (List.filter (fun c => match c with Call_render _ _ => true | _ => false end) cs).

(** The frontend and the map of [self] both have that size and that pixel
    ratio. *)
Definition agree (w : World) (self : loc) (size : Size) (pixelRatio : float) : Prop :=
  exists r f m,
    instance_view w self = Some (r, f, m)
    /\ hf_size f = size /\ mo_size (map_mapOptions m) = size
    /\ hf_pixelRatio f = pixelRatio /\ mo_pixelRatio (map_mapOptions m) = pixelRatio.

(** *** The public surface as a transition system *)

Record CtorArgs := {
  a_mapMode : MapMode;
  a_width : uint32_t;
  a_height : uint32_t;
  a_pixelRatio : float;
  a_cachePath : string;
  a_assetRoot : string;
  a_apiKey : string;
  a_baseUrl : string;
  a_uriSchemeAlias : string;
  a_apiKeyParameterName : string;
  a_sourceTemplate : string;
  a_styleTemplate : string;
  a_spritesTemplate : string;
  a_glyphsTemplate : string;
  a_tileTemplate : string;
  a_defaultStyleUrl : string;
  a_requiresApiKey : bool
}.

(** One call of one of the five bridge functions, on any instance. *)
Inductive Op :=
  | Op_new (a : CtorArgs)
  | Op_render (self : loc)
  | Op_setDebugFlags (self : loc) (debugFlags : MapDebugOptions)
  | Op_setCamera (self : loc) (lat lon zoom bearing pitch : double)
  | Op_setStyleUrl (self : loc) (styleUrl : string).

(** The world after the call, whatever it returned. *)
Definition step (o : Op) (w : World) : World :=
  match o with
  | Op_new a =>
      snd (MapRenderer_new (a_mapMode a) (a_width a) (a_height a) (a_pixelRatio a)
             (a_cachePath a) (a_assetRoot a) (a_apiKey a) (a_baseUrl a)
             (a_uriSchemeAlias a) (a_apiKeyParameterName a)
             (a_sourceTemplate a) (a_styleTemplate a) (a_spritesTemplate a)
             (a_glyphsTemplate a) (a_tileTemplate a) (a_defaultStyleUrl a)
             (a_requiresApiKey a) w)
  | Op_render self => snd (MapRenderer_render self w)
  | Op_setDebugFlags self d => snd (MapRenderer_setDebugFlags self d w)
  | Op_setCamera self lat lon zoom bearing pitch =>
      snd (MapRenderer_setCamera self lat lon zoom bearing pitch w)
  | Op_setStyleUrl self url => snd (MapRenderer_setStyleUrl self url w)
  end.

Definition run (ops : list Op) (w : World) : World :=
  fold_left (fun w o => step o w) ops w.

(** What every call keeps: stored frontends and instances stay as they
    are, a stored map keeps its binding and its options. *)
Definition keeps (w w' : World) : Prop :=
  (forall l f, frontends w !! l = Some f -> frontends w' !! l = Some f)
  /\ (forall l r, renderers w !! l = Some r -> renderers w' !! l = Some r)
  /\ (forall l m, maps w !! l = Some m ->
        exists m', maps w' !! l = Some m'
          /\ map_frontend m' = map_frontend m
          /\ map_mapOptions m' = map_mapOptions m).

(** A call that returns nothing and replaces the map behind [mp] by [m'],
    leaving the frontends, the instances and the environment as they were. *)
Definition map_effect (w : World) (mp : loc) (c : M unit) (m' : Map) : Prop :=
  exists w',
    c w = (Returned tt, w')
    /\ frontends w' = frontends w
    /\ renderers w' = renderers w
    /\ env w' = env w
    /\ maps w' = <[mp := m']> (maps w).

(** ** Running the bridge functions *)

Lemma instance_view_Some w self r f m :
  instance_view w self = Some (r, f, m) <->
  renderers w !! self = Some r
  /\ frontends w !! frontend r = Some f
  /\ maps w !! map r = Some m.
Proof.
  unfold instance_view. split.
  - destruct (renderers w !! self) as [r'|]; [|discriminate].
    destruct (frontends w !! frontend r') as [f'|] eqn:Hf; [|discriminate].
    destruct (maps w !! map r') as [m'|] eqn:Hm; [|discriminate].
    intros [= -> -> ->]. auto.
  - intros (-> & -> & ->). reflexivity.
Qed.

(** The three mutators run alike: one journal entry, one map replaced. *)
Ltac run_mutator H :=
  apply instance_view_Some in H; destruct H as (Hr & _ & Hm);
  unfold bind, deref_renderer, journal, update_map; cbn;
  rewrite Hr; cbn; rewrite Hm; reflexivity.

Lemma MapRenderer_setDebugFlags_run w self r f m d :
  instance_view w self = Some (r, f, m) ->
  MapRenderer_setDebugFlags self d w =
    (Returned tt,
     with_maps (<[map r := Map_with_debug d m]> (maps w))
       (with_calls (calls w ++ [Call_setDebug (map r) d]) w)).
Proof.
  intros H. unfold MapRenderer_setDebugFlags, Map_setDebug. run_mutator H.
Qed.

Lemma MapRenderer_setCamera_run w self r f m lat lon zoom bearing pitch :
  instance_view w self = Some (r, f, m) ->
  let camera :=
    {| co_center := Some {| latitude := lat; longitude := lon |};
       co_zoom := Some zoom; co_bearing := Some bearing; co_pitch := Some pitch |} in
  MapRenderer_setCamera self lat lon zoom bearing pitch w =
    (Returned tt,
     with_maps (<[map r := Map_with_camera (jump camera (map_camera m)) m]> (maps w))
       (with_calls (calls w ++ [Call_jumpTo (map r) camera]) w)).
Proof.
  intros H camera. unfold MapRenderer_setCamera, Map_jumpTo. run_mutator H.
Qed.

Lemma MapRenderer_setStyleUrl_run w self r f m url :
  instance_view w self = Some (r, f, m) ->
  MapRenderer_setStyleUrl self url w =
    (Returned tt,
     with_maps (<[map r := Map_with_style {| style_url := url |} m]> (maps w))
       (with_calls (calls w ++ [Call_loadURL (map r) url]) w)).
Proof.
  intros H. unfold MapRenderer_setStyleUrl, Style_loadURL. run_mutator H.
Qed.

Lemma MapRenderer_render_run w self r f m :
  instance_view w self = Some (r, f, m) ->
  let pass := render_pass f m (env w) in
  let w1 :=
    with_env (snd pass)
      (with_calls (calls w ++ [Call_render (frontend r) (map r)]) w) in
  MapRenderer_render self w =
    match fst pass with
    | inl e => (Thrown e, w1)
    | inr res =>
        let w2 := with_calls (calls w1 ++ [Call_encodePNG (image res)]) w1 in
        match encodePNG (image res) with
        | inl e => (Thrown e, w2)
        | inr png => (Returned png, w2)
        end
    end.
Proof.
  intros H. apply instance_view_Some in H. destruct H as (Hr & Hf & Hm).
  unfold MapRenderer_render, bind, deref_renderer, HeadlessFrontend_render.
  cbn. rewrite Hr. cbn. rewrite Hf, Hm. unfold bind, journal. cbn.
  destruct (render_pass f m (env w)) as [[e|res] env']; cbn; [reflexivity|].
  unfold encodePNG_call, bind, journal. cbn.
  destruct (encodePNG (image res)); reflexivity.
Qed.

Lemma fresh_lookup {A} (h : gmap loc A) : h !! fresh (dom h) = None.
Proof. apply not_elem_of_dom, is_fresh. Qed.

Lemma fresh_ne {A} (h : gmap loc A) l x : h !! l = Some x -> fresh (dom h) <> l.
Proof. intros H E. rewrite <- E, fresh_lookup in H. discriminate. Qed.

Section Construction.

Variables (mapMode : MapMode) (width height : uint32_t) (pixelRatio : float).
Variables cachePath assetRoot apiKey baseUrl uriSchemeAlias apiKeyParameterName
          sourceTemplate styleTemplate spritesTemplate glyphsTemplate tileTemplate
          defaultStyleUrl : string.
Variable requiresApiKey : bool.

Let size := {| size_width := width; size_height := height |}.
Let mapOptions := map_options mapMode size pixelRatio.
Let resourceOptions :=
  resource_options cachePath assetRoot apiKey
    (tile_server_options baseUrl uriSchemeAlias apiKeyParameterName
       sourceTemplate styleTemplate spritesTemplate glyphsTemplate tileTemplate
       defaultStyleUrl requiresApiKey).

(** The objects a successful construction stores. *)
Let new_frontend := {| hf_size := size; hf_pixelRatio := pixelRatio |}.
Let new_map (fe : loc) :=
  {| map_frontend := fe; map_observer := nullObserver;
     map_mapOptions := mapOptions; map_resourceOptions := resourceOptions;
     map_camera := initial_camera; map_debug := initial_debug;
     map_style := initial_style |}.
Let new_renderer (fe mp : loc) :=
  {| runLoop := RunLoop_default; frontend := fe; map := mp |}.

Lemma MapRenderer_new_run (w : World) :
  let fe := fresh (dom (frontends w)) in
  let mp := fresh (dom (maps w)) in
  let self := fresh (dom (renderers w)) in
  let c1 := Call_HeadlessFrontend size pixelRatio in
  let c2 := Call_Map fe nullObserver mapOptions resourceOptions in
  MapRenderer_new mapMode width height pixelRatio cachePath assetRoot apiKey
    baseUrl uriSchemeAlias apiKeyParameterName sourceTemplate styleTemplate
    spritesTemplate glyphsTemplate tileTemplate defaultStyleUrl requiresApiKey w =
  match frontend_fault size pixelRatio (env w) with
  | Some e => (Thrown e, with_calls (calls w ++ [c1]) w)
  | None =>
      match map_fault mapOptions resourceOptions (env w) with
      | Some e => (Thrown e, with_calls (calls w ++ [c1; c2]) w)
      | None =>
          match runloop_fault (env w) with
          | Some e => (Thrown e, with_calls (calls w ++ [c1; c2; Call_RunLoop]) w)
          | None =>
              (Returned self,
               {| frontends := <[fe := new_frontend]> (frontends w);
                  maps := <[mp := new_map fe]> (maps w);
                  renderers := <[self := new_renderer fe mp]> (renderers w);
                  env := env w;
                  calls := calls w ++ [c1; c2; Call_RunLoop] |})
          end
      end
  end.
Proof.
  intros fe mp self c1 c2.
  unfold MapRenderer_new. cbv zeta. fold size. fold mapOptions resourceOptions.
  subst c1 c2 new_frontend new_map new_renderer. cbv beta.
  clearbody mapOptions resourceOptions size.
  unfold HeadlessFrontend_make, bind, journal. cbn.
  destruct (frontend_fault size pixelRatio (env w)) as [e|]; [reflexivity|].
  unfold unwinding, Map_make, bind, journal. cbn.
  fold fe. rewrite lookup_insert_eq. cbn.
  destruct (map_fault mapOptions resourceOptions (env w)) as [e|].
  { unfold HeadlessFrontend_delete, with_frontends, with_calls. cbn.
    rewrite delete_insert_id by apply fresh_lookup.
    rewrite <- app_assoc. reflexivity. }
  unfold MapRenderer_make, bind, journal. cbn.
  destruct (runloop_fault (env w)) as [e|].
  { unfold HeadlessFrontend_delete, Map_delete, with_frontends, with_maps,
      with_calls. cbn.
    rewrite !delete_insert_id by apply fresh_lookup.
    rewrite <- !app_assoc. reflexivity. }
  unfold with_renderers. cbn. rewrite <- !app_assoc. reflexivity.
Qed.

End Construction.

(** ** What every call keeps *)

Lemma keeps_refl w : keeps w w.
Proof. repeat split; eauto. Qed.

Lemma keeps_same_stores w w' :
  frontends w' = frontends w -> maps w' = maps w -> renderers w' = renderers w ->
  keeps w w'.
Proof.
  intros E1 E2 E3. unfold keeps. rewrite E1, E2, E3. repeat split; eauto.
Qed.

Lemma keeps_trans w1 w2 w3 : keeps w1 w2 -> keeps w2 w3 -> keeps w1 w3.
Proof.
  intros (Hf & Hr & Hm) (Hf' & Hr' & Hm'). repeat split; eauto.
  intros l m H. destruct (Hm _ _ H) as (m' & H' & E1 & E2).
  destruct (Hm' _ _ H') as (m'' & H'' & E1' & E2').
  exists m''. split; [done|]. split; congruence.
Qed.

(** A computation all of whose runs keep the stored objects. *)
Definition Keeping {A} (c : M A) : Prop := forall w, keeps w (snd (c w)).

Lemma Keeping_ret {A} (a : A) : Keeping (ret a).
Proof. intros w. apply keeps_refl. Qed.

Lemma Keeping_throw {A} e : Keeping (@throw A e).
Proof. intros w. apply keeps_refl. Qed.

Lemma Keeping_bind {A B} (c : M A) (k : A -> M B) :
  Keeping c -> (forall a, Keeping (k a)) -> Keeping (bind c k).
Proof.
  intros Hc Hk w. unfold bind. specialize (Hc w).
  destruct (c w) as [[a|e|] w']; cbn in *; [|done..].
  eapply keeps_trans; [exact Hc|apply Hk].
Qed.

Lemma Keeping_journal c : Keeping (journal c).
Proof. intros w. by apply keeps_same_stores. Qed.

Lemma Keeping_deref_renderer self : Keeping (deref_renderer self).
Proof.
  intros w. unfold deref_renderer.
  destruct (renderers w !! self); apply keeps_refl.
Qed.

Lemma Keeping_update_map mp (g : Map -> Map) :
  (forall m, map_frontend (g m) = map_frontend m) ->
  (forall m, map_mapOptions (g m) = map_mapOptions m) ->
  Keeping (update_map mp g).
Proof.
  intros G1 G2 w. unfold update_map.
  destruct (maps w !! mp) as [m|] eqn:Hm; [|apply keeps_refl].
  cbn. repeat split; eauto. intros l m0 H. cbn.
  destruct (decide (mp = l)) as [->|Hne].
  - rewrite lookup_insert_eq. exists (g m). split; [done|].
    rewrite G1, G2. split; congruence.
  - rewrite lookup_insert_ne by done. eauto.
Qed.

Lemma Keeping_render fe mp : Keeping (HeadlessFrontend_render fe mp).
Proof.
  intros w. unfold HeadlessFrontend_render.
  destruct (frontends w !! fe); [|apply keeps_refl].
  destruct (maps w !! mp); [|apply keeps_refl].
  unfold bind, journal. cbn.
  destruct (render_pass _ _ _) as [[e|r] env']; by apply keeps_same_stores.
Qed.

Lemma Keeping_encodePNG img : Keeping (encodePNG_call img).
Proof.
  unfold encodePNG_call. apply Keeping_bind; [apply Keeping_journal|].
  intros _. destruct (encodePNG img); [apply Keeping_throw|apply Keeping_ret].
Qed.

Lemma Keeping_MapRenderer_render self : Keeping (MapRenderer_render self).
Proof.
  unfold MapRenderer_render.
  apply Keeping_bind; [apply Keeping_deref_renderer|]. intros r.
  apply Keeping_bind; [apply Keeping_render|]. intros res.
  apply Keeping_encodePNG.
Qed.

Lemma Keeping_MapRenderer_setDebugFlags self d :
  Keeping (MapRenderer_setDebugFlags self d).
Proof.
  unfold MapRenderer_setDebugFlags, Map_setDebug.
  apply Keeping_bind; [apply Keeping_deref_renderer|]. intros r.
  apply Keeping_bind; [apply Keeping_journal|]. intros _.
  by apply Keeping_update_map.
Qed.

Lemma Keeping_MapRenderer_setCamera self lat lon zoom bearing pitch :
  Keeping (MapRenderer_setCamera self lat lon zoom bearing pitch).
Proof.
  unfold MapRenderer_setCamera, Map_jumpTo.
  apply Keeping_bind; [apply Keeping_deref_renderer|]. intros r.
  apply Keeping_bind; [apply Keeping_journal|]. intros _.
  by apply Keeping_update_map.
Qed.

Lemma Keeping_MapRenderer_setStyleUrl self url :
  Keeping (MapRenderer_setStyleUrl self url).
Proof.
  unfold MapRenderer_setStyleUrl, Style_loadURL.
  apply Keeping_bind; [apply Keeping_deref_renderer|]. intros r.
  apply Keeping_bind; [apply Keeping_journal|]. intros _.
  by apply Keeping_update_map.
Qed.

Lemma Keeping_MapRenderer_new mapMode width height pixelRatio
    cachePath assetRoot apiKey baseUrl uriSchemeAlias apiKeyParameterName
    sourceTemplate styleTemplate spritesTemplate glyphsTemplate tileTemplate
    defaultStyleUrl requiresApiKey :
  Keeping (MapRenderer_new mapMode width height pixelRatio cachePath assetRoot
             apiKey baseUrl uriSchemeAlias apiKeyParameterName sourceTemplate
             styleTemplate spritesTemplate glyphsTemplate tileTemplate
             defaultStyleUrl requiresApiKey).
Proof.
  intros w. rewrite MapRenderer_new_run.
  destruct (frontend_fault _ _ _); [by apply keeps_same_stores|].
  destruct (map_fault _ _ _); [by apply keeps_same_stores|].
  destruct (runloop_fault _); [by apply keeps_same_stores|].
  cbn. repeat split; cbn.
  - intros l f H. rewrite lookup_insert_ne; [done|by eapply fresh_ne].
  - intros l r H. rewrite lookup_insert_ne; [done|by eapply fresh_ne].
  - intros l m H. exists m. rewrite lookup_insert_ne; [done|by eapply fresh_ne].
Qed.

Lemma step_keeps o w : keeps w (step o w).
Proof.
  destruct o; cbn.
  - apply Keeping_MapRenderer_new.
  - apply Keeping_MapRenderer_render.
  - apply Keeping_MapRenderer_setDebugFlags.
  - apply Keeping_MapRenderer_setCamera.
  - apply Keeping_MapRenderer_setStyleUrl.
Qed.

Lemma run_keeps ops w : keeps w (run ops w).
Proof.
  revert w. induction ops as [|o ops IH]; intros w; cbn.
  - apply keeps_refl.
  - eapply keeps_trans; [apply step_keeps|apply IH].
Qed.

Lemma agree_keeps w w' self size pixelRatio :
  keeps w w' -> agree w self size pixelRatio -> agree w' self size pixelRatio.
Proof.
  intros (Hf & Hr & Hm) (r & f & m & Hv & E1 & E2 & E3 & E4).
  apply instance_view_Some in Hv. destruct Hv as (Hr0 & Hf0 & Hm0).
  destruct (Hm _ _ Hm0) as (m' & Hm' & _ & Eo).
  exists r, f, m'. split.
  - apply instance_view_Some. eauto.
  - rewrite Eo. auto.
Qed.

Lemma render_passes_app cs cs' :
  render_passes (cs ++ cs') = render_passes cs + render_passes cs'.
Proof. unfold render_passes. by rewrite List.filter_app, length_app. Qed.

(** ** Render *)

(** C1: on every instance, [MapRenderer_render] makes exactly one render
    pass, of the instance's map on the instance's frontend, and hands the
    raster of that pass to the PNG codec; it returns the codec's whole
    output, or throws what the pass or the codec threw.  Nothing else can
    come out of it. *)
Theorem MapRenderer_render_one_pass w self r f m :
  instance_view w self = Some (r, f, m) ->
  let pass := render_pass f m (env w) in
  let w1 :=
    with_env (snd pass)
      (with_calls (calls w ++ [Call_render (frontend r) (map r)]) w) in
  MapRenderer_render self w =
    match fst pass with
    | inl e => (Thrown e, w1)
    | inr res =>
        let w2 := with_calls (calls w1 ++ [Call_encodePNG (image res)]) w1 in
        match encodePNG (image res) with
        | inl e => (Thrown e, w2)
        | inr png => (Returned png, w2)
        end
    end
  /\ render_passes (calls (snd (MapRenderer_render self w)))
     = S (render_passes (calls w)).
Proof.
  intros H pass w1. pose proof (MapRenderer_render_run _ _ _ _ _ H) as E.
  cbv zeta in E. fold pass in E. fold w1 in E. split; [exact E|].
  rewrite E. subst w1.
  destruct (fst pass) as [e|res]; cbn -[render_passes].
  - rewrite render_passes_app. cbn. lia.
  - destruct (encodePNG (image res)); cbn -[render_passes];
      rewrite !render_passes_app; cbn; lia.
Qed.

(** A render call only reads the three object stores, on every world and
    for every [self], live or not. *)
Lemma MapRenderer_render_reads_only w self :
  let w' := snd (MapRenderer_render self w) in
  frontends w' = frontends w /\ maps w' = maps w /\ renderers w' = renderers w.
Proof.
  unfold MapRenderer_render, bind, deref_renderer, HeadlessFrontend_render. cbn.
  destruct (renderers w !! self) as [r|]; cbn; [|done].
  destruct (frontends w !! frontend r) as [f|]; cbn; [|done].
  destruct (maps w !! map r) as [m|]; cbn; [|done].
  unfold bind, journal. cbn.
  destruct (render_pass f m (env w)) as [[e|res] env']; cbn; [done|].
  unfold encodePNG_call, bind, journal. cbn.
  destruct (encodePNG (image res)); done.
Qed.

(** ** Mutators *)

(** C2: for all five values, [MapRenderer_setCamera] makes one engine
    call, [jumpTo], whose options carry exactly the given centre, zoom,
    bearing and pitch; the call returns and the map's camera is then
    exactly those values, whatever it was before.  No value is inspected. *)
Theorem MapRenderer_setCamera_jumps w self r f m lat lon zoom bearing pitch :
  instance_view w self = Some (r, f, m) ->
  exists w',
    MapRenderer_setCamera self lat lon zoom bearing pitch w = (Returned tt, w')
    /\ calls w' = calls w ++
         [Call_jumpTo (map r)
            {| co_center := Some {| latitude := lat; longitude := lon |};
               co_zoom := Some zoom; co_bearing := Some bearing;
               co_pitch := Some pitch |}]
    /\ map_camera <$> maps w' !! map r =
         Some {| cam_center := {| latitude := lat; longitude := lon |};
                 cam_zoom := zoom; cam_bearing := bearing; cam_pitch := pitch |}.
Proof.
  intros H. eexists. split; [by eapply MapRenderer_setCamera_run|].
  cbn. by rewrite lookup_insert_eq.
Qed.

(** C7: the three mutators return no value, and each replaces one
    component of the map behind the instance's [map] member: the debug
    flags, the camera, the style.  The frontends, the instances and the
    environment are as before, and so is every other map. *)
Theorem mutators_touch_only_the_map w self r f m :
  instance_view w self = Some (r, f, m) ->
  forall d lat lon zoom bearing pitch url,
    map_effect w (map r) (MapRenderer_setDebugFlags self d) (Map_with_debug d m)
    /\ map_effect w (map r) (MapRenderer_setCamera self lat lon zoom bearing pitch)
         (Map_with_camera
            {| cam_center := {| latitude := lat; longitude := lon |};
               cam_zoom := zoom; cam_bearing := bearing; cam_pitch := pitch |} m)
    /\ map_effect w (map r) (MapRenderer_setStyleUrl self url)
         (Map_with_style {| style_url := url |} m).
Proof.
  intros H d lat lon zoom bearing pitch url. unfold map_effect. repeat split.
  - eexists. split; [by eapply MapRenderer_setDebugFlags_run|]. done.
  - eexists. split; [by eapply MapRenderer_setCamera_run|]. done.
  - eexists. split; [by eapply MapRenderer_setStyleUrl_run|]. done.
Qed.

(** C8: [MapRenderer_setDebugFlags] sets the map's debug state to the
    given bitmask; a second call leaves the second bitmask alone, not a
    combination with the first.  Each call hands the engine the bitmask it
    was given. *)
Theorem MapRenderer_setDebugFlags_replaces w self r f m f1 f2 :
  instance_view w self = Some (r, f, m) ->
  exists w1 w2,
    MapRenderer_setDebugFlags self f1 w = (Returned tt, w1)
    /\ map_debug <$> maps w1 !! map r = Some f1
    /\ MapRenderer_setDebugFlags self f2 w1 = (Returned tt, w2)
    /\ map_debug <$> maps w2 !! map r = Some f2
    /\ calls w2 = calls w ++ [Call_setDebug (map r) f1; Call_setDebug (map r) f2].
Proof.
  intros H. pose proof H as H0.
  apply instance_view_Some in H0. destruct H0 as (Hr & Hf & Hm).
  eexists _, _. split; [by eapply MapRenderer_setDebugFlags_run|].
  split; [cbn; by rewrite lookup_insert_eq|].
  split.
  - eapply MapRenderer_setDebugFlags_run. apply instance_view_Some.
    cbn. split; [exact Hr|]. split; [exact Hf|]. apply lookup_insert_eq.
  - cbn. rewrite lookup_insert_eq, <- app_assoc. done.
Qed.

(** ** Construction *)

Section Lifetime.

Variables (mapMode : MapMode) (width height : uint32_t) (pixelRatio : float).
Variables cachePath assetRoot apiKey baseUrl uriSchemeAlias apiKeyParameterName
          sourceTemplate styleTemplate spritesTemplate glyphsTemplate tileTemplate
          defaultStyleUrl : string.
Variable requiresApiKey : bool.

Let size := {| size_width := width; size_height := height |}.
Let mapOptions :=
  {| mo_mapMode := mapMode; mo_size := size; mo_pixelRatio := pixelRatio |}.
Let tileServerOptions :=
  {| tso_baseURL := baseUrl;
     tso_uriSchemeAlias := uriSchemeAlias;
     tso_apiKeyParameterName := apiKeyParameterName;
     tso_sourceTemplate :=
       {| ut_template := sourceTemplate; ut_segment := ""; ut_extra := [] |};
     tso_styleTemplate :=
       {| ut_template := styleTemplate; ut_segment := "maps"; ut_extra := [] |};
     tso_spritesTemplate :=
       {| ut_template := spritesTemplate; ut_segment := ""; ut_extra := [] |};
     tso_glyphsTemplate :=
       {| ut_template := glyphsTemplate; ut_segment := "fonts"; ut_extra := [] |};
     tso_tileTemplate :=
       {| ut_template := tileTemplate; ut_segment := "tiles"; ut_extra := [] |};
     tso_defaultStyles :=
       [ {| ds_url := defaultStyleUrl; ds_name := "Basic"; ds_version := 1 |} ];
     tso_defaultStyle := "Basic";
     tso_requiresApiKey := requiresApiKey |}.
Let resourceOptions :=
  {| ro_cachePath := cachePath; ro_assetPath := assetRoot; ro_apiKey := apiKey;
     ro_tileServerOptions := tileServerOptions |}.

Local Abbreviation new w :=
  (MapRenderer_new mapMode width height pixelRatio cachePath assetRoot apiKey
     baseUrl uriSchemeAlias apiKeyParameterName sourceTemplate styleTemplate
     spritesTemplate glyphsTemplate tileTemplate defaultStyleUrl requiresApiKey w)
  (only parsing).

(** C5: the assembly has no failure of its own.  For all inputs the
    option values hold the inputs as given, empty strings and zero sizes
    included; the frontend constructor is always called with the size as
    given, and unless that constructor throws, the map constructor is
    called with exactly the assembled values.  The call is never
    undefined, and whatever it throws, one of the engine's three
    constructors threw. *)
Theorem assembly_has_no_failure_path (w : World) :
  (map_options mapMode size pixelRatio = mapOptions
   /\ resource_options cachePath assetRoot apiKey
        (tile_server_options baseUrl uriSchemeAlias apiKeyParameterName
           sourceTemplate styleTemplate spritesTemplate glyphsTemplate
           tileTemplate defaultStyleUrl requiresApiKey) = resourceOptions)
  /\ (exists rest,
        calls (snd (new w)) =
          calls w ++ Call_HeadlessFrontend size pixelRatio :: rest
        /\ (frontend_fault size pixelRatio (env w) = None ->
            exists fe rest',
              rest = Call_Map fe nullObserver mapOptions resourceOptions :: rest'))
  /\ match fst (new w) with
     | Returned _ =>
         frontend_fault size pixelRatio (env w) = None
         /\ map_fault mapOptions resourceOptions (env w) = None
         /\ runloop_fault (env w) = None
     | Thrown e =>
         frontend_fault size pixelRatio (env w) = Some e
         \/ map_fault mapOptions resourceOptions (env w) = Some e
         \/ runloop_fault (env w) = Some e
     | Undefined => False
     end.
Proof.
  split; [split; reflexivity|].
  rewrite MapRenderer_new_run.
  change (map_options mapMode {| size_width := width; size_height := height |}
            pixelRatio) with mapOptions.
  change (resource_options _ _ _ _) with resourceOptions.
  fold size.
  destruct (frontend_fault size pixelRatio (env w)) as [e|] eqn:E1; cbn.
  { split; [|by left]. exists []. split; [done|]. discriminate. }
  destruct (map_fault mapOptions resourceOptions (env w)) as [e|] eqn:E2; cbn.
  { split; [|by right; left]. eexists. split; [done|]. intros _. by eexists _, _. }
  destruct (runloop_fault (env w)) as [e|] eqn:E3; cbn.
  { split; [|by right; right]. eexists. split; [done|]. intros _. by eexists _, _. }
  split; [|done]. eexists. split; [done|]. intros _. by eexists _, _.
Qed.

Lemma new_run (w : World) :
  let fe := fresh (dom (frontends w)) in
  let mp := fresh (dom (maps w)) in
  let self := fresh (dom (renderers w)) in
  let c1 := Call_HeadlessFrontend size pixelRatio in
  let c2 := Call_Map fe nullObserver mapOptions resourceOptions in
  new w =
  match frontend_fault size pixelRatio (env w) with
  | Some e => (Thrown e, with_calls (calls w ++ [c1]) w)
  | None =>
      match map_fault mapOptions resourceOptions (env w) with
      | Some e => (Thrown e, with_calls (calls w ++ [c1; c2]) w)
      | None =>
          match runloop_fault (env w) with
          | Some e => (Thrown e, with_calls (calls w ++ [c1; c2; Call_RunLoop]) w)
          | None =>
              (Returned self,
               {| frontends :=
                    <[fe := {| hf_size := size; hf_pixelRatio := pixelRatio |}]>
                      (frontends w);
                  maps :=
                    <[mp := {| map_frontend := fe; map_observer := nullObserver;
                               map_mapOptions := mapOptions;
                               map_resourceOptions := resourceOptions;
                               map_camera := initial_camera;
                               map_debug := initial_debug;
                               map_style := initial_style |}]> (maps w);
                  renderers :=
                    <[self := {| runLoop := RunLoop_default; frontend := fe;
                                 map := mp |}]> (renderers w);
                  env := env w;
                  calls := calls w ++ [c1; c2; Call_RunLoop] |})
          end
      end
  end.
Proof. apply MapRenderer_new_run. Qed.

(** Construction keeps the world free of dangling pointers. *)
Lemma new_wf (w : World) : wf_world w -> wf_world (snd (new w)).
Proof.
  intros [Hr Hm]. rewrite new_run.
  destruct (frontend_fault _ _ _); [done|].
  destruct (map_fault _ _ _); [done|].
  destruct (runloop_fault _); [done|].
  split; cbn.
  - intros l r. rewrite lookup_insert. case_decide as E.
    + intros [= <-]. cbn. rewrite !lookup_insert_eq. eauto.
    + intros H. destruct (Hr _ _ H) as [[f Hf] [m Hm']].
      rewrite !lookup_insert_ne by (by eapply fresh_ne). eauto.
  - intros l m. rewrite lookup_insert. case_decide as E.
    + intros [= <-]. cbn. rewrite lookup_insert_eq. eauto.
    + intros H. destruct (Hm _ _ H) as [f Hf].
      rewrite lookup_insert_ne by (by eapply fresh_ne). eauto.
Qed.

(** C6: [MapRenderer_new] allocates a frontend of the given size and
    pixel ratio and a map bound to it with the null observer.  When the
    frontend allocation fails, or the map allocation after it, the call
    throws that failure, returns no instance, and leaves no object
    behind.  When the call returns, the instance, the frontend and the map
    are all newly allocated, the instance points to the two, and no other
    instance or map in the world points to either. *)
Theorem MapRenderer_new_allocates (w : World) :
  wf_world w ->
  let fe := fresh (dom (frontends w)) in
  let mp := fresh (dom (maps w)) in
  let w' := snd (new w) in
  (forall e, frontend_fault size pixelRatio (env w) = Some e ->
     fst (new w) = Thrown e
     /\ frontends w' = frontends w /\ maps w' = maps w
     /\ renderers w' = renderers w)
  /\ (forall e, frontend_fault size pixelRatio (env w) = None ->
       map_fault mapOptions resourceOptions (env w) = Some e ->
       fst (new w) = Thrown e
       /\ frontends w' = frontends w /\ maps w' = maps w
       /\ renderers w' = renderers w)
  /\ (forall self, fst (new w) = Returned self ->
       (renderers w !! self = None /\ frontends w !! fe = None
        /\ maps w !! mp = None)
       /\ renderers w' =
            <[self := {| runLoop := RunLoop_default; frontend := fe; map := mp |}]>
              (renderers w)
       /\ frontends w' =
            <[fe := {| hf_size := size; hf_pixelRatio := pixelRatio |}]> (frontends w)
       /\ maps w' =
            <[mp := {| map_frontend := fe; map_observer := nullObserver;
                       map_mapOptions := mapOptions;
                       map_resourceOptions := resourceOptions;
                       map_camera := initial_camera;
                       map_debug := initial_debug;
                       map_style := initial_style |}]> (maps w)
       /\ (forall l r, renderers w' !! l = Some r ->
             frontend r = fe \/ map r = mp -> l = self)
       /\ (forall l m, maps w' !! l = Some m -> map_frontend m = fe -> l = mp)).
Proof.
  intros [Hr Hm] fe mp w'. subst w'. rewrite new_run. fold fe mp.
  split; [|split].
  - intros e ->. done.
  - intros e -> ->. done.
  - destruct (frontend_fault _ _ _); [discriminate|].
    destruct (map_fault _ _ _); [discriminate|].
    destruct (runloop_fault _); [discriminate|].
    cbn. intros self [= <-].
    split; [repeat split; apply fresh_lookup|].
    do 3 (split; [reflexivity|]).
    split.
    + intros l r. rewrite lookup_insert. case_decide as E; [done|].
      intros H. destruct (Hr _ _ H) as [[f0 Hf0] [m0 Hm0]].
      intros [Ef|Em]; exfalso.
      * rewrite Ef in Hf0. subst fe. by rewrite fresh_lookup in Hf0.
      * rewrite Em in Hm0. subst mp. by rewrite fresh_lookup in Hm0.
    + intros l m. rewrite lookup_insert. case_decide as E; [done|].
      intros H. destruct (Hm _ _ H) as [f0 Hf0]. intros Ef. exfalso.
      rewrite Ef in Hf0. subst fe. by rewrite fresh_lookup in Hf0.
Qed.

(** C10: the frontend and the map of an instance are built from the
    same size and the same pixel ratio, the ones given to
    [MapRenderer_new], and they still have them after any sequence of
    calls of the five bridge functions, on this instance or on any
    other. *)
Theorem frontend_and_map_agree_for_life (w w1 : World) (self : loc)
    (ops : list Op) :
  new w = (Returned self, w1) ->
  (exists fe,
     calls w1 = calls w ++
       [Call_HeadlessFrontend size pixelRatio;
        Call_Map fe nullObserver mapOptions resourceOptions;
        Call_RunLoop]
     /\ mo_size mapOptions = size /\ mo_pixelRatio mapOptions = pixelRatio)
  /\ agree (run ops w1) self size pixelRatio.
Proof.
  rewrite new_run.
  destruct (frontend_fault _ _ _); [discriminate|].
  destruct (map_fault _ _ _); [discriminate|].
  destruct (runloop_fault _); [discriminate|].
  intros [= <- <-]. split; [by eexists|].
  eapply agree_keeps; [apply run_keeps|].
  eexists _, _, _. split.
  - apply instance_view_Some. cbn. rewrite lookup_insert_eq.
    split; [reflexivity|]. cbn. rewrite !lookup_insert_eq. done.
  - done.
Qed.

End Lifetime.

End Bridge.

Arguments Returned {exception A} a.
Arguments Thrown {exception A} e.
Arguments Undefined {exception A}.
Arguments image {PremultipliedImage} r.
Arguments frontends {Env PremultipliedImage} w.
Arguments maps {Env PremultipliedImage} w.
Arguments renderers {Env PremultipliedImage} w.
Arguments env {Env PremultipliedImage} w.
Arguments calls {Env PremultipliedImage} w.
Arguments instance_view {Env PremultipliedImage} w self.
Arguments wf_world {Env PremultipliedImage} w.
Arguments agree {Env PremultipliedImage} w self size pixelRatio.
Arguments render_passes {PremultipliedImage} cs.

(** ** The tile server options the bridge assembles *)

Section TileServer.

Variables baseUrl uriSchemeAlias apiKeyParameterName
          sourceTemplate styleTemplate spritesTemplate glyphsTemplate tileTemplate
          defaultStyleUrl : string.
Variable requiresApiKey : bool.

(** The configuration, and the calls that built it. *)
Let options : TileServerOptions :=
  tile_server_options baseUrl uriSchemeAlias apiKeyParameterName
    sourceTemplate styleTemplate spritesTemplate glyphsTemplate tileTemplate
    defaultStyleUrl requiresApiKey.
Let setter_calls : TsoJournal :=
  tile_server_options baseUrl uriSchemeAlias apiKeyParameterName
    sourceTemplate styleTemplate spritesTemplate glyphsTemplate tileTemplate
    defaultStyleUrl requiresApiKey.

(** Selection by name finds nothing while no style is registered: the
    order of the two calls matters. *)
Lemma selection_needs_registration (styles : list DefaultStyle) :
  tso_defaultStyle
    (Tso.empty |> withDefaultStyle "Basic" |> withDefaultStyles styles) = "".
Proof. reflexivity. Qed.

(** C3: for every [defaultStyleUrl], the assembled configuration has
    exactly one registered default style, named "Basic", of version 1, with
    that URL, and "Basic" is the selected default style; among the setter
    calls, the only two on default styles are the registration of the list
    and then the selection by name. *)
Theorem one_default_style_registered_then_selected :
  tso_defaultStyles options =
    [ {| ds_url := defaultStyleUrl; ds_name := "Basic"; ds_version := 1 |} ]
  /\ tso_defaultStyle options = "Basic"
  /\ List.filter is_default_style_call setter_calls =
       [ Call_withDefaultStyles
           [ {| ds_url := defaultStyleUrl; ds_name := "Basic"; ds_version := 1 |} ];
         Call_withDefaultStyle "Basic" ].
Proof. repeat split. Qed.

(** C4: for all inputs, the five URL templates are installed with the
    path segments "", "maps", "", "fonts", "tiles" and no extra
    placeholders: in the configuration, and in the setter calls. *)
Theorem templates_have_fixed_literals :
  template_literals options =
    [ ("", []); ("maps", []); ("", []); ("fonts", []); ("tiles", []) ]
  /\ List.map ut_template
       [ tso_sourceTemplate options; tso_styleTemplate options;
         tso_spritesTemplate options; tso_glyphsTemplate options;
         tso_tileTemplate options ] =
       [ sourceTemplate; styleTemplate; spritesTemplate; glyphsTemplate; tileTemplate ]
  /\ List.filter is_template_call setter_calls =
       [ Call_withSourceTemplate sourceTemplate "" [];
         Call_withStyleTemplate styleTemplate "maps" [];
         Call_withSpritesTemplate spritesTemplate "" [];
         Call_withGlyphsTemplate glyphsTemplate "fonts" [];
         Call_withTileTemplate tileTemplate "tiles" [] ].
Proof. repeat split. Qed.

End TileServer.

(** ** A concrete engine

    A small engine to run the bridge on: the environment counts the frames
    rendered so far, a frontend of zero width or height cannot be allocated,
    a map without a style cannot be rendered, a raster is the list of the
    surface's width and height and the map's debug bitmask, and the codec
    writes a fixed header before the three numbers in decimal. *)

Module Demo.

Definition Env : Type := nat.
Definition exception : Type := string.
Definition PremultipliedImage : Type := list N.

Definition frontend_fault (size : Size) (_ : float) (_ : Env) : option exception :=
  if (N.eqb (size_width size) 0 || N.eqb (size_height size) 0)%bool
  then Some "invalid size" else None.

Definition map_fault (_ : MapOptions) (_ : ResourceOptions) (_ : Env)
    : option exception := None.

Definition runloop_fault (_ : Env) : option exception := None.

Definition zero : double := S754_zero false.

Definition initial_camera : Camera :=
  {| cam_center := {| latitude := zero; longitude := zero |};
     cam_zoom := zero; cam_bearing := zero; cam_pitch := zero |}.

Definition initial_debug : MapDebugOptions := 0.

Definition initial_style : Style := {| style_url := "" |}.

Definition render_pass (f : HeadlessFrontend) (m : Map) (e : Env)
    : (exception + RenderResult PremultipliedImage) * Env :=
  if String.eqb (style_url (map_style m)) ""
  then (inl "no style", e)
  else (inr {| image := [size_width (hf_size f); size_height (hf_size f);
                         map_debug m] |}, S e).

Definition encodePNG (img : PremultipliedImage) : exception + string :=
  inr (String.concat " " ("PNG" :: List.map pretty img)).

Abbreviation World := (World Env PremultipliedImage).

Definition world0 : World :=
  {| frontends := ∅; maps := ∅; renderers := ∅; env := 0%nat; calls := [] |}.

(** [MapRenderer_new] of a static map of the given size at pixel ratio 1,
    everything else fixed. *)
Definition new (width height : uint32_t) : M Env exception PremultipliedImage loc :=
  MapRenderer_new Env exception PremultipliedImage
    frontend_fault map_fault runloop_fault
    initial_camera initial_debug initial_style
    Static width height Mo.one
    "/var/cache/tiles" "/usr/share/assets" "secret"
    "https://tiles.example.org" "example" "key"
    "/tiles/{id}.json" "/maps/{id}/style.json" "/maps/{id}/sprite"
    "/fonts/{fontstack}/{range}.pbf" "/tiles/{z}/{x}/{y}"
    "https://tiles.example.org/maps/basic/style.json" true.

Definition render := MapRenderer_render Env exception PremultipliedImage render_pass encodePNG.
Definition setDebugFlags := MapRenderer_setDebugFlags Env exception PremultipliedImage.
Definition setCamera := MapRenderer_setCamera Env exception PremultipliedImage.
Definition setStyleUrl := MapRenderer_setStyleUrl Env exception PremultipliedImage.

(** The world after one 512 x 512 instance was made, and the three objects
    of that instance. *)
Definition world1 : World := snd (new 512 512 world0).

Definition size1 : Size := {| size_width := 512; size_height := 512 |}.

Definition r1 : MapRenderer :=
  {| runLoop := RunLoop_default; frontend := 1; map := 1 |}.

Definition f1 : HeadlessFrontend := {| hf_size := size1; hf_pixelRatio := Mo.one |}.

Definition m1 : Map :=
  {| map_frontend := 1; map_observer := nullObserver;
     map_mapOptions := map_options Static size1 Mo.one;
     map_resourceOptions :=
       resource_options "/var/cache/tiles" "/usr/share/assets" "secret"
         (tile_server_options "https://tiles.example.org" "example" "key"
            "/tiles/{id}.json" "/maps/{id}/style.json" "/maps/{id}/sprite"
            "/fonts/{fontstack}/{range}.pbf" "/tiles/{z}/{x}/{y}"
            "https://tiles.example.org/maps/basic/style.json" true);
     map_camera := initial_camera; map_debug := initial_debug;
     map_style := initial_style |}.

(** The same world once a style was asked for. *)
Definition world2 : World :=
  snd (setStyleUrl 1 "https://tiles.example.org/maps/basic/style.json" world1).

Definition m2 : Map :=
  Map_with_style
    {| style_url := "https://tiles.example.org/maps/basic/style.json" |} m1.

End Demo.

Lemma Demo_world0_wf : wf_world Demo.world0.
Proof. split; intros l x; cbn; rewrite lookup_empty; discriminate. Qed.

Lemma Demo_world1_wf : wf_world Demo.world1.
Proof. apply new_wf, Demo_world0_wf. Qed.

Lemma Demo_view1 : instance_view Demo.world1 1 = Some (Demo.r1, Demo.f1, Demo.m1).
Proof. vm_compute. reflexivity. Qed.

Lemma Demo_view2 : instance_view Demo.world2 1 = Some (Demo.r1, Demo.f1, Demo.m2).
Proof. vm_compute. reflexivity. Qed.

(** A zero width reaches the engine: the frontend constructor is called with
    it, and it is the engine that refuses. *)
Example zero_width_reaches_the_engine :
  fst (Demo.new 0 512 Demo.world0) = Thrown "invalid size"
  /\ calls (snd (Demo.new 0 512 Demo.world0)) =
       [ Call_HeadlessFrontend Demo.PremultipliedImage
           {| size_width := 0; size_height := 512 |} Mo.one ].
Proof. split; reflexivity. Qed.

(** Flags are not accumulated: after 2 then 4 the state is 4, not 6. *)
Example debug_flags_are_not_combined :
  map_debug <$>
    maps (snd (Demo.setDebugFlags 1 4 (snd (Demo.setDebugFlags 1 2 Demo.world1)))) !! 1%positive
  = Some 4%N.
Proof. vm_compute. reflexivity. Qed.

Example render_needs_a_style :
  fst (Demo.render 1 Demo.world1) = Thrown "no style".
Proof. vm_compute. reflexivity. Qed.

Example render_returns_the_encoded_frame :
  fst (Demo.render 1 Demo.world2) = Returned "PNG 512 512 0".
Proof. vm_compute. reflexivity. Qed.

(** ** The theorems on the concrete engine *)

(** The first instance of the concrete world, with a style: one render call
    makes one pass and returns the encoded frame. *)
Lemma MapRenderer_render_one_pass_witness :
  instance_view Demo.world2 1 = Some (Demo.r1, Demo.f1, Demo.m2)
  /\ fst (Demo.render 1 Demo.world2) = Returned "PNG 512 512 0"
  /\ render_passes (calls (snd (Demo.render 1 Demo.world2)))
     = S (render_passes (calls Demo.world2)).
Proof.
  split; [exact Demo_view2|].
  destruct (MapRenderer_render_one_pass Demo.Env Demo.exception
              Demo.PremultipliedImage Demo.render_pass Demo.encodePNG
              Demo.world2 1 Demo.r1 Demo.f1 Demo.m2 Demo_view2) as [E N].
  split; [|exact N].
  unfold Demo.render. rewrite E. reflexivity.
Defined.

(** A camera far out of any range goes through as it is. *)
Lemma MapRenderer_setCamera_jumps_witness :
  instance_view Demo.world1 1 = Some (Demo.r1, Demo.f1, Demo.m1)
  /\ exists w',
       Demo.setCamera 1 (S754_finite false 1 200) S754_nan
         (S754_infinity false) (S754_finite true 3 7) Demo.zero Demo.world1
       = (Returned tt, w')
       /\ map_camera <$> maps w' !! 1%positive =
          Some {| cam_center := {| latitude := S754_finite false 1 200;
                                   longitude := S754_nan |};
                  cam_zoom := S754_infinity false;
                  cam_bearing := S754_finite true 3 7;
                  cam_pitch := Demo.zero |}.
Proof.
  split; [exact Demo_view1|].
  destruct (MapRenderer_setCamera_jumps Demo.Env Demo.exception
              Demo.PremultipliedImage Demo.world1 1 Demo.r1 Demo.f1 Demo.m1
              (S754_finite false 1 200) S754_nan (S754_infinity false)
              (S754_finite true 3 7) Demo.zero Demo_view1) as (w' & E & _ & C).
  exists w'. split; [exact E|exact C].
Defined.

Lemma mutators_touch_only_the_map_witness :
  instance_view Demo.world1 1 = Some (Demo.r1, Demo.f1, Demo.m1)
  /\ map_effect Demo.Env Demo.exception Demo.PremultipliedImage Demo.world1 1
       (Demo.setStyleUrl 1 "https://tiles.example.org/maps/basic/style.json")
       Demo.m2.
Proof.
  split; [exact Demo_view1|].
  apply (mutators_touch_only_the_map Demo.Env Demo.exception
           Demo.PremultipliedImage Demo.world1 1 Demo.r1 Demo.f1 Demo.m1
           Demo_view1 0%N Demo.zero Demo.zero Demo.zero Demo.zero Demo.zero
           "https://tiles.example.org/maps/basic/style.json").
Defined.

(** Tile borders (2), then collision boxes (16): the state is 16. *)
Lemma MapRenderer_setDebugFlags_replaces_witness :
  instance_view Demo.world1 1 = Some (Demo.r1, Demo.f1, Demo.m1)
  /\ exists w1 w2,
       Demo.setDebugFlags 1 2 Demo.world1 = (Returned tt, w1)
       /\ Demo.setDebugFlags 1 16 w1 = (Returned tt, w2)
       /\ map_debug <$> maps w2 !! 1%positive = Some 16%N.
Proof.
  split; [exact Demo_view1|].
  destruct (MapRenderer_setDebugFlags_replaces Demo.Env Demo.exception
              Demo.PremultipliedImage Demo.world1 1 Demo.r1 Demo.f1 Demo.m1
              2%N 16%N Demo_view1) as (w1 & w2 & E1 & _ & E2 & D & _).
  exists w1, w2. split; [exact E1|]. split; [exact E2|exact D].
Defined.

(** A second instance in a world that already holds one: its frontend and
    its map are new, and the first instance points to neither. *)
Lemma MapRenderer_new_allocates_witness :
  wf_world Demo.world1
  /\ fst (Demo.new 256 128 Demo.world1) = Returned 2%positive
  /\ frontends Demo.world1 !! 2%positive = None
  /\ (forall l r,
        renderers (snd (Demo.new 256 128 Demo.world1)) !! l = Some r ->
        frontend r = 2%positive \/ map r = 2%positive -> l = 2%positive).
Proof.
  split; [exact Demo_world1_wf|].
  assert (E : fst (Demo.new 256 128 Demo.world1) = Returned 2%positive)
    by (vm_compute; reflexivity).
  split; [exact E|].
  destruct (MapRenderer_new_allocates Demo.Env Demo.exception
              Demo.PremultipliedImage Demo.frontend_fault Demo.map_fault
              Demo.runloop_fault Demo.initial_camera Demo.initial_debug
              Demo.initial_style Static 256 128 Mo.one
              "/var/cache/tiles" "/usr/share/assets" "secret"
              "https://tiles.example.org" "example" "key"
              "/tiles/{id}.json" "/maps/{id}/style.json" "/maps/{id}/sprite"
              "/fonts/{fontstack}/{range}.pbf" "/tiles/{z}/{x}/{y}"
              "https://tiles.example.org/maps/basic/style.json" true
              Demo.world1 Demo_world1_wf) as (_ & _ & H).
  destruct (H 2%positive E) as ((_ & F & _) & _ & _ & _ & X & _).
  split; [exact F|exact X].
Defined.

(** The first instance stays 512 x 512 at ratio 1 on both sides through a
    style load, a camera jump, a render, the construction of a smaller
    instance, debug flags on that one and a render of it. *)
Lemma frontend_and_map_agree_for_life_witness :
  Demo.new 512 512 Demo.world0 = (Returned 1%positive, Demo.world1)
  /\ agree
       (run Demo.Env Demo.exception Demo.PremultipliedImage
          Demo.frontend_fault Demo.map_fault Demo.runloop_fault
          Demo.initial_camera Demo.initial_debug Demo.initial_style
          Demo.render_pass Demo.encodePNG
          [ Op_setStyleUrl 1 "https://tiles.example.org/maps/basic/style.json";
            Op_setCamera 1 Demo.zero Demo.zero (S754_finite false 1 1)
              Demo.zero Demo.zero;
            Op_render 1;
            Op_new {| a_mapMode := Tile; a_width := 256; a_height := 256;
                      a_pixelRatio := S754_finite false 1 1;
                      a_cachePath := ""; a_assetRoot := ""; a_apiKey := "";
                      a_baseUrl := ""; a_uriSchemeAlias := "";
                      a_apiKeyParameterName := ""; a_sourceTemplate := "";
                      a_styleTemplate := ""; a_spritesTemplate := "";
                      a_glyphsTemplate := ""; a_tileTemplate := "";
                      a_defaultStyleUrl := ""; a_requiresApiKey := false |};
            Op_setDebugFlags 2 6;
            Op_render 2 ]
          Demo.world1)
       1 Demo.size1 Mo.one.
Proof.
  assert (E : Demo.new 512 512 Demo.world0 = (Returned 1%positive, Demo.world1))
    by (vm_compute; reflexivity).
  split; [exact E|].
  apply (frontend_and_map_agree_for_life Demo.Env Demo.exception
           Demo.PremultipliedImage Demo.frontend_fault Demo.map_fault
           Demo.runloop_fault Demo.initial_camera Demo.initial_debug
           Demo.initial_style Demo.render_pass Demo.encodePNG
           Static 512 512 Mo.one
           "/var/cache/tiles" "/usr/share/assets" "secret"
           "https://tiles.example.org" "example" "key"
           "/tiles/{id}.json" "/maps/{id}/style.json" "/maps/{id}/sprite"
           "/fonts/{fontstack}/{range}.pbf" "/tiles/{z}/{x}/{y}"
           "https://tiles.example.org/maps/basic/style.json" true
           Demo.world0 Demo.world1 1 _ E).
Defined.

(** * The whole life of an instance

    What the header leaves implicit is the end of an instance: the class has
    an empty destructor, so releasing the one pointer [MapRenderer_new]
    returned destroys the members in reverse order of declaration, the map,
    then the frontend, then the run loop. *)

Section Lifecycle.

Variables Env exception PremultipliedImage : Type.
Variable frontend_fault : Size -> float -> Env -> option exception.
Variable map_fault : MapOptions -> ResourceOptions -> Env -> option exception.
Variable runloop_fault : Env -> option exception.
Variable initial_camera : Camera.
Variable initial_debug : MapDebugOptions.
Variable initial_style : Style.
Variable render_pass :
  HeadlessFrontend -> Map -> Env -> (exception + RenderResult PremultipliedImage) * Env.
Variable encodePNG : PremultipliedImage -> exception + string.

Local Abbreviation World := (World Env PremultipliedImage).
Local Abbreviation M := (M Env exception PremultipliedImage).
Local Abbreviation render :=
  (MapRenderer_render Env exception PremultipliedImage render_pass encodePNG).
Local Abbreviation setDebugFlags :=
  (MapRenderer_setDebugFlags Env exception PremultipliedImage).
Local Abbreviation setCamera :=
  (MapRenderer_setCamera Env exception PremultipliedImage).
Local Abbreviation setStyleUrl :=
  (MapRenderer_setStyleUrl Env exception PremultipliedImage).
Local Abbreviation new :=
  (MapRenderer_new Env exception PremultipliedImage frontend_fault map_fault
     runloop_fault initial_camera initial_debug initial_style).
Local Abbreviation step :=
  (step Env exception PremultipliedImage frontend_fault map_fault runloop_fault
     initial_camera initial_debug initial_style render_pass encodePNG).

(** Destructor of the run loop member: it holds nothing in a store. *)
Definition RunLoop_delete (_ : RunLoop) (w : World) : World := w.

(** The member destructors [~MapRenderer()] runs, in the order it runs
    them.  The class declares [runLoop], [frontend], [map]; members are
    destroyed in reverse order of declaration. *)
Definition member_destructors (r : MapRenderer) : list (World -> World) :=
  [ Map_delete Env PremultipliedImage (map r);
    HeadlessFrontend_delete Env PremultipliedImage (frontend r);
    RunLoop_delete (runLoop r) ].

(** The worlds a sequence of destructors passes through, one after each
    destructor. *)
Fixpoint passes (ds : list (World -> World)) (w : World) : list World :=
  match ds with
  | [] => []
  | d :: ds => d w :: passes ds (d w)
  end.

(** [~MapRenderer()], run by the release of the owning pointer: the body is
    empty, the member destructors run in their order, and the instance
    itself is gone. *)
Definition MapRenderer_delete (self : loc) : M unit := fun w =>
  match renderers w !! self with
  | None => (Undefined, w)
  | Some r =>
      let w' := foldl (fun w d => d w) w (member_destructors r) in
      (Returned tt,
       with_renderers Env PremultipliedImage (delete self (renderers w')) w')
  end.

(** A call of the public surface, or the release of an instance. *)
Inductive Event :=
  | Bridge_call (o : Op)
  | Release (self : loc).

Definition life_step (e : Event) (w : World) : World :=
  match e with
  | Bridge_call o => step o w
  | Release self => snd (MapRenderer_delete self w)
  end.

Definition life_run (es : list Event) (w : World) : World :=
  fold_left (fun w e => life_step e w) es w.

(** The instance an event is addressed to, when it is addressed to one. *)
Definition target (e : Event) : option loc :=
  match e with
  | Bridge_call (Op_new _) => None
  | Bridge_call (Op_render self) => Some self
  | Bridge_call (Op_setDebugFlags self _) => Some self
  | Bridge_call (Op_setCamera self _ _ _ _ _) => Some self
  | Bridge_call (Op_setStyleUrl self _) => Some self
  | Release self => Some self
  end.

(** Which frontend each stored map is bound to. *)
Definition bindings (w : World) : gmap loc loc := map_frontend <$> maps w.

(** The ownership discipline of the header: every instance points to a
    stored frontend and to a stored map bound to that frontend; no two
    instances share a frontend or a map; every stored frontend and every
    stored map belongs to an instance. *)
Definition sound (w : World) : Prop :=
  (forall s r, renderers w !! s = Some r ->
     is_Some (frontends w !! frontend r)
     /\ bindings w !! map r = Some (frontend r))
  /\ (forall s1 s2 r1 r2,
        renderers w !! s1 = Some r1 -> renderers w !! s2 = Some r2 ->
        frontend r1 = frontend r2 \/ map r1 = map r2 -> s1 = s2)
  /\ (forall l, is_Some (frontends w !! l) ->
        exists s r, renderers w !! s = Some r /\ frontend r = l)
  /\ (forall l, is_Some (bindings w !! l) ->
        exists s r, renderers w !! s = Some r /\ map r = l).

(** No stored map is bound to a frontend that is gone. *)
Definition no_dangling_binding (w : World) : Prop :=
  forall l m, maps w !! l = Some m -> is_Some (frontends w !! map_frontend m).

(** Two worlds with the same frontends, the same instances and the same
    bindings. *)
Definition same_shape (w w' : World) : Prop :=
  frontends w' = frontends w
  /\ renderers w' = renderers w
  /\ bindings w' = bindings w.

(** ** Shape *)

Lemma same_shape_refl w : same_shape w w.
Proof. by repeat split. Qed.

Lemma same_shape_trans w1 w2 w3 :
  same_shape w1 w2 -> same_shape w2 w3 -> same_shape w1 w3.
Proof. intros (A & B & C) (A' & B' & C'). repeat split; congruence. Qed.

Lemma sound_same_shape w w' : same_shape w w' -> sound w -> sound w'.
Proof.
  intros (A & B & C). unfold sound. rewrite A, B, C. done.
Qed.

(** A computation whose runs all keep the shape. *)
Definition Shaped {A} (c : M A) : Prop := forall w, same_shape w (snd (c w)).

Lemma Shaped_bind {A B} (c : M A) (k : A -> M B) :
  Shaped c -> (forall a, Shaped (k a)) ->
  Shaped (bind Env exception PremultipliedImage c k).
Proof.
  intros Hc Hk w. unfold bind. specialize (Hc w).
  destruct (c w) as [[a|e|] w']; cbn in *; [|done..].
  eapply same_shape_trans; [exact Hc|apply Hk].
Qed.

Lemma Shaped_journal c : Shaped (journal Env exception PremultipliedImage c).
Proof. intros w. by repeat split. Qed.

Lemma Shaped_deref_renderer self :
  Shaped (deref_renderer Env exception PremultipliedImage self).
Proof.
  intros w. unfold deref_renderer.
  destruct (renderers w !! self); apply same_shape_refl.
Qed.

Lemma Shaped_update_map mp (g : Map -> Map) :
  (forall m, map_frontend (g m) = map_frontend m) ->
  Shaped (update_map Env exception PremultipliedImage mp g).
Proof.
  intros G w. unfold update_map.
  destruct (maps w !! mp) as [m|] eqn:Hm; [|apply same_shape_refl].
  repeat split. unfold bindings. cbn.
  rewrite fmap_insert, G. apply insert_id.
  by rewrite lookup_fmap, Hm.
Qed.

Lemma Shaped_mutators self :
  (forall d, Shaped (setDebugFlags self d))
  /\ (forall lat lon zoom bearing pitch,
        Shaped (setCamera self lat lon zoom bearing pitch))
  /\ (forall url, Shaped (setStyleUrl self url)).
Proof.
  repeat split; intros;
    (apply Shaped_bind; [apply Shaped_deref_renderer|]; intros r;
     apply Shaped_bind; [apply Shaped_journal|]; intros _;
     by apply Shaped_update_map).
Qed.

Lemma Shaped_render self : Shaped (render self).
Proof.
  intros w.
  destruct (MapRenderer_render_reads_only Env exception PremultipliedImage
              render_pass encodePNG w self) as (A & B & C).
  repeat split; [done..|]. unfold bindings. by rewrite B.
Qed.

(** ** The ownership discipline is kept *)

Lemma sound_new mapMode width height pixelRatio
    cachePath assetRoot apiKey baseUrl uriSchemeAlias apiKeyParameterName
    sourceTemplate styleTemplate spritesTemplate glyphsTemplate tileTemplate
    defaultStyleUrl requiresApiKey w :
  sound w ->
  sound (snd (new mapMode width height pixelRatio cachePath assetRoot apiKey
                baseUrl uriSchemeAlias apiKeyParameterName sourceTemplate
                styleTemplate spritesTemplate glyphsTemplate tileTemplate
                defaultStyleUrl requiresApiKey w)).
Proof.
  intros Hs. rewrite MapRenderer_new_run.
  destruct (frontend_fault _ _ _);
    [revert Hs; apply sound_same_shape; by repeat split|].
  destruct (map_fault _ _ _);
    [revert Hs; apply sound_same_shape; by repeat split|].
  destruct (runloop_fault _);
    [revert Hs; apply sound_same_shape; by repeat split|].
  destruct Hs as (L & X & OF & OM).
  set (fe := fresh (dom (frontends w))).
  set (mp := fresh (dom (maps w))).
  set (self := fresh (dom (renderers w))).
  assert (Ffe : frontends w !! fe = None) by apply fresh_lookup.
  assert (Fmp : bindings w !! mp = None).
  { unfold bindings. rewrite lookup_fmap. unfold mp. by rewrite fresh_lookup. }
  assert (Fself : renderers w !! self = None) by apply fresh_lookup.
  assert (Old : forall s r, renderers w !! s = Some r ->
                  s <> self /\ frontend r <> fe /\ map r <> mp).
  { intros s r H. destruct (L _ _ H) as [[f Hf] Hb].
    repeat split; intros E; subst; congruence. }
  unfold sound, bindings. cbn. rewrite fmap_insert. cbn.
  fold (bindings w). repeat split.
  - destruct (decide (s = self)) as [->|Hne].
    + rewrite lookup_insert_eq in H. injection H as <-. cbn.
      by rewrite lookup_insert_eq.
    + rewrite lookup_insert_ne in H by done.
      destruct (Old _ _ H) as (_ & Nf & _). destruct (L _ _ H) as [Hf _].
      by rewrite lookup_insert_ne.
  - destruct (decide (s = self)) as [->|Hne].
    + rewrite lookup_insert_eq in H. injection H as <-. cbn.
      by rewrite lookup_insert_eq.
    + rewrite lookup_insert_ne in H by done.
      destruct (Old _ _ H) as (_ & _ & Nm). destruct (L _ _ H) as [_ Hb].
      by rewrite lookup_insert_ne.
  - intros s1 s2 r1 r2 H1 H2 E.
    destruct (decide (s1 = self)) as [->|N1], (decide (s2 = self)) as [->|N2].
    + done.
    + rewrite lookup_insert_eq in H1. injection H1 as <-.
      rewrite lookup_insert_ne in H2 by done.
      destruct (Old _ _ H2) as (_ & Nf & Nm). cbn in E.
      destruct E as [E|E]; congruence.
    + rewrite lookup_insert_eq in H2. injection H2 as <-.
      rewrite lookup_insert_ne in H1 by done.
      destruct (Old _ _ H1) as (_ & Nf & Nm). cbn in E.
      destruct E as [E|E]; congruence.
    + rewrite lookup_insert_ne in H1, H2 by done. eauto.
  - intros l Hl. destruct (decide (l = fe)) as [->|Hne].
    + eexists self, _. rewrite lookup_insert_eq. done.
    + rewrite lookup_insert_ne in Hl by done.
      destruct (OF _ Hl) as (s & r & Hr & <-). exists s, r.
      destruct (Old _ _ Hr) as (Ns & _). by rewrite lookup_insert_ne.
  - intros l Hl. destruct (decide (l = mp)) as [->|Hne].
    + eexists self, _. rewrite lookup_insert_eq. done.
    + rewrite lookup_insert_ne in Hl by done.
      destruct (OM _ Hl) as (s & r & Hr & <-). exists s, r.
      destruct (Old _ _ Hr) as (Ns & _). by rewrite lookup_insert_ne.
Qed.

Lemma MapRenderer_delete_run w self r :
  renderers w !! self = Some r ->
  MapRenderer_delete self w =
    (Returned tt,
     {| frontends := delete (frontend r) (frontends w);
        maps := delete (map r) (maps w);
        renderers := delete self (renderers w);
        env := env w; calls := calls w |}).
Proof. intros H. unfold MapRenderer_delete. rewrite H. reflexivity. Qed.

Lemma MapRenderer_delete_absent w self :
  renderers w !! self = None -> MapRenderer_delete self w = (Undefined, w).
Proof. intros H. unfold MapRenderer_delete. rewrite H. reflexivity. Qed.

Lemma sound_delete self w : sound w -> sound (snd (MapRenderer_delete self w)).
Proof.
  intros Hs. destruct (renderers w !! self) as [r|] eqn:Hr.
  2: { by rewrite MapRenderer_delete_absent. }
  rewrite (MapRenderer_delete_run _ _ _ Hr). destruct Hs as (L & X & OF & OM).
  assert (Other : forall s r', self <> s -> renderers w !! s = Some r' ->
                    frontend r' <> frontend r /\ map r' <> map r).
  { intros s r' Hne H. split; intros E; apply Hne; symmetry; eapply X; eauto. }
  unfold sound, bindings. cbn. rewrite fmap_delete. fold (bindings w).
  repeat split.
  - apply lookup_delete_Some in H as [Hne H].
    destruct (Other _ _ Hne H) as [Nf _]. destruct (L _ _ H) as [Hf _].
    by rewrite lookup_delete_ne.
  - apply lookup_delete_Some in H as [Hne H].
    destruct (Other _ _ Hne H) as [_ Nm]. destruct (L _ _ H) as [_ Hb].
    by rewrite lookup_delete_ne.
  - intros s1 s2 r1 r2 H1 H2.
    apply lookup_delete_Some in H1 as [_ H1].
    apply lookup_delete_Some in H2 as [_ H2]. eauto.
  - intros l [f Hl]. apply lookup_delete_Some in Hl as [Hne Hl].
    destruct (OF l (mk_is_Some _ _ Hl)) as (s & r' & H & <-).
    exists s, r'. split; [|done]. apply lookup_delete_Some. split; [|done].
    intros E. subst s. congruence.
  - intros l [f Hl]. apply lookup_delete_Some in Hl as [Hne Hl].
    destruct (OM l (mk_is_Some _ _ Hl)) as (s & r' & H & <-).
    exists s, r'. split; [|done]. apply lookup_delete_Some. split; [|done].
    intros E. subst s. congruence.
Qed.

Lemma sound_life_step e w : sound w -> sound (life_step e w).
Proof.
  intros Hs. destruct e as [o|self]; [|by apply sound_delete].
  destruct o; cbn.
  - by apply sound_new.
  - eapply sound_same_shape; [apply Shaped_render|done].
  - eapply sound_same_shape; [apply Shaped_mutators|done].
  - eapply sound_same_shape; [apply Shaped_mutators|done].
  - eapply sound_same_shape; [apply Shaped_mutators|done].
Qed.

(** A world whose three stores are empty is sound. *)
Lemma sound_empty w :
  frontends w = ∅ -> maps w = ∅ -> renderers w = ∅ -> sound w.
Proof.
  intros A B C. unfold sound, bindings. rewrite A, B, C, fmap_empty.
  repeat split; intros *; rewrite ?lookup_empty; try done;
    intros [? ?]; done.
Qed.

(** A sound world has live instances. *)
Lemma sound_view w self r :
  sound w -> renderers w !! self = Some r ->
  exists f m, instance_view w self = Some (r, f, m) /\ map_frontend m = frontend r.
Proof.
  intros (L & _) Hr. destruct (L _ _ Hr) as [[f Hf] Hb].
  unfold bindings in Hb. rewrite lookup_fmap in Hb.
  destruct (maps w !! map r) as [m|] eqn:Hm; [|discriminate].
  injection Hb as Hb. exists f, m. split; [|done]. by apply instance_view_Some.
Qed.

Lemma sound_life_run (es : list Event) (w : World) :
  sound w -> sound (life_run es w).
Proof.
  revert w. induction es as [|e es IH]; intros w Hs; cbn; [done|].
  apply IH. by apply sound_life_step.
Qed.

(** X1: the ownership discipline holds for the whole life of every
    instance.  It is kept by every call of the five bridge functions,
    whatever the call returns or throws, and by every release; so after any
    events, every instance there is points to a stored frontend and to a
    stored map bound to that frontend, and shares neither with another
    instance. *)
Theorem sound_for_life (es : list Event) (w : World) :
  sound w ->
  let w' := life_run es w in
  sound w'
  /\ forall self r,
       renderers w' !! self = Some r ->
       (exists f m,
          instance_view w' self = Some (r, f, m) /\ map_frontend m = frontend r)
       /\ (forall other r',
             renderers w' !! other = Some r' -> other <> self ->
             frontend r' <> frontend r /\ map r' <> map r).
Proof.
  intros Hs w'. assert (Hs' : sound w') by (by apply sound_life_run).
  split; [done|]. intros self r Hr. split; [by apply sound_view|].
  destruct Hs' as (_ & X & _). intros other r' Hr' Hne.
  split; intros E; apply Hne; eapply X; eauto.
Qed.

(** ** One instance among others *)

(** A call on a pointer that is no instance is undefined and changes
    nothing. *)
Lemma mutators_absent w self :
  renderers w !! self = None ->
  (forall d, setDebugFlags self d w = (Undefined, w))
  /\ (forall lat lon zoom bearing pitch,
        setCamera self lat lon zoom bearing pitch w = (Undefined, w))
  /\ (forall url, setStyleUrl self url w = (Undefined, w)).
Proof.
  intros H. repeat split; intros;
    unfold MapRenderer_setDebugFlags, MapRenderer_setCamera,
      MapRenderer_setStyleUrl, bind, deref_renderer; by rewrite H.
Qed.

Lemma view_stable (w w' : World) b rb :
  renderers w !! b = Some rb ->
  renderers w' !! b = Some rb ->
  frontends w' !! frontend rb = frontends w !! frontend rb ->
  maps w' !! map rb = maps w !! map rb ->
  instance_view w' b = instance_view w b.
Proof. intros H H' F Mp. unfold instance_view. by rewrite H, H', F, Mp. Qed.

(** An instance stays where it is, with the same two pointers, through
    every event but its own release. *)
Lemma renderer_persists e w self r :
  e <> Release self ->
  renderers w !! self = Some r ->
  renderers (life_step e w) !! self = Some r.
Proof.
  intros Hne Hr. destruct e as [o|s]; cbn.
  - by apply step_keeps.
  - destruct (renderers w !! s) as [r'|] eqn:Hs.
    + rewrite (MapRenderer_delete_run _ _ _ Hs). cbn.
      rewrite lookup_delete_ne; [done|]. intros ->. done.
    + by rewrite MapRenderer_delete_absent.
Qed.

(** X3: in a sound world, an event addressed to another instance, or
    the construction of a new one, leaves an instance exactly as it was:
    same pointers, same frontend, same map with the same camera, style and
    debug flags.  Releasing one instance takes nothing from another. *)
Theorem events_leave_other_instances_alone (e : Event) (w : World) b rb :
  sound w ->
  renderers w !! b = Some rb ->
  target e <> Some b ->
  instance_view (life_step e w) b = instance_view w b.
Proof.
  intros Hs Hb Ht. pose proof Hs as (L & X & _).
  destruct (L _ _ Hb) as [Hfb Hmb].
  assert (Hmb' : is_Some (maps w !! map rb)).
  { unfold bindings in Hmb. rewrite lookup_fmap in Hmb.
    destruct (maps w !! map rb); [done|discriminate]. }
  assert (Other : forall a ra, a <> b -> renderers w !! a = Some ra ->
                    frontend ra <> frontend rb /\ map ra <> map rb).
  { intros a ra Hne H. split; intros E; apply Hne; eapply X; eauto. }
  assert (Hp : renderers (life_step e w) !! b = Some rb).
  { apply renderer_persists; [|done]. intros ->. by apply Ht. }
  apply (view_stable _ _ _ _ Hb Hp); clear Hp.
  - destruct e as [[a|a|a d|a lat lon zoom bearing pitch|a url]|a]; cbn.
    + rewrite MapRenderer_new_run.
      destruct (frontend_fault _ _ _); [done|].
      destruct (map_fault _ _ _); [done|].
      destruct (runloop_fault _); [done|]. cbn.
      destruct Hfb as [f Hf]. rewrite lookup_insert_ne; [done|by eapply fresh_ne].
    + by destruct (Shaped_render a w) as (-> & _).
    + destruct (Shaped_mutators a) as (S1 & _ & _).
      by destruct (S1 d w) as (-> & _).
    + destruct (Shaped_mutators a) as (_ & S2 & _).
      by destruct (S2 lat lon zoom bearing pitch w) as (-> & _).
    + destruct (Shaped_mutators a) as (_ & _ & S3).
      by destruct (S3 url w) as (-> & _).
    + destruct (renderers w !! a) as [ra|] eqn:Ha.
      * rewrite (MapRenderer_delete_run _ _ _ Ha). cbn.
        apply lookup_delete_ne. eapply Other; [|done]. intros ->. by apply Ht.
      * by rewrite MapRenderer_delete_absent.
  - destruct e as [[a|a|a d|a lat lon zoom bearing pitch|a url]|a]; cbn.
    + rewrite MapRenderer_new_run.
      destruct (frontend_fault _ _ _); [done|].
      destruct (map_fault _ _ _); [done|].
      destruct (runloop_fault _); [done|]. cbn.
      destruct Hmb' as [m Hm]. rewrite lookup_insert_ne; [done|by eapply fresh_ne].
    + destruct (MapRenderer_render_reads_only Env exception PremultipliedImage
                  render_pass encodePNG w a) as (_ & -> & _). done.
    + assert (Hne : a <> b) by (intros ->; by apply Ht).
      destruct (renderers w !! a) as [ra|] eqn:Ha.
      * destruct (sound_view _ _ _ Hs Ha) as (f & m & Hv & _).
        rewrite (MapRenderer_setDebugFlags_run _ _ _ _ _ _ _ _ _ Hv). cbn.
        apply lookup_insert_ne. by eapply Other.
      * destruct (mutators_absent _ _ Ha) as (-> & _). done.
    + assert (Hne : a <> b) by (intros ->; by apply Ht).
      destruct (renderers w !! a) as [ra|] eqn:Ha.
      * destruct (sound_view _ _ _ Hs Ha) as (f & m & Hv & _).
        rewrite (MapRenderer_setCamera_run _ _ _ _ _ _ _ _ _ _ _ _ _ Hv). cbn.
        apply lookup_insert_ne. by eapply Other.
      * destruct (mutators_absent _ _ Ha) as (_ & -> & _). done.
    + assert (Hne : a <> b) by (intros ->; by apply Ht).
      destruct (renderers w !! a) as [ra|] eqn:Ha.
      * destruct (sound_view _ _ _ Hs Ha) as (f & m & Hv & _).
        rewrite (MapRenderer_setStyleUrl_run _ _ _ _ _ _ _ _ _ Hv). cbn.
        apply lookup_insert_ne. by eapply Other.
      * destruct (mutators_absent _ _ Ha) as (_ & _ & ->). done.
    + destruct (renderers w !! a) as [ra|] eqn:Ha.
      * rewrite (MapRenderer_delete_run _ _ _ Ha). cbn.
        apply lookup_delete_ne. eapply Other; [|done]. intros ->. by apply Ht.
      * by rewrite MapRenderer_delete_absent.
Qed.

(** ** Composing the calls on one instance *)

(** Equality of everything but the journal. *)
Definition same_state (w w' : World) : Prop :=
  frontends w' = frontends w /\ maps w' = maps w
  /\ renderers w' = renderers w /\ env w' = env w.

(** X4: a render pass is run on the state the mutators left: after a
    style, a camera and debug flags were set, the engine renders the same
    frontend and the map with exactly that style, camera and flags, and
    everything else as constructed; the call returns the encoding of that
    frame or throws what the pass or the codec threw. *)
Theorem render_sees_the_latest_state w self r f m
    url lat lon zoom bearing pitch d :
  instance_view w self = Some (r, f, m) ->
  let w3 :=
    snd (setDebugFlags self d
           (snd (setCamera self lat lon zoom bearing pitch
                   (snd (setStyleUrl self url w))))) in
  let m3 :=
    {| map_frontend := map_frontend m; map_observer := map_observer m;
       map_mapOptions := map_mapOptions m;
       map_resourceOptions := map_resourceOptions m;
       map_camera :=
         {| cam_center := {| latitude := lat; longitude := lon |};
            cam_zoom := zoom; cam_bearing := bearing; cam_pitch := pitch |};
       map_debug := d;
       map_style := {| style_url := url |} |} in
  instance_view w3 self = Some (r, f, m3)
  /\ fst (render self w3) =
       match fst (render_pass f m3 (env w)) with
       | inl e => Thrown e
       | inr res =>
           match encodePNG (image res) with
           | inl e => Thrown e
           | inr png => Returned png
           end
       end.
Proof.
  intros Hv w3 m3. pose proof Hv as Hv0.
  apply instance_view_Some in Hv0. destruct Hv0 as (Hr & Hf & Hm).
  assert (V : forall (w' : World) m',
            renderers w' = renderers w -> frontends w' = frontends w ->
            maps w' !! map r = Some m' -> instance_view w' self = Some (r, f, m')).
  { intros w' m' E1 E2 E3. apply instance_view_Some. by rewrite E1, E2. }
  assert (H3 : instance_view w3 self = Some (r, f, m3) /\ env w3 = env w).
  { subst w3.
    rewrite (MapRenderer_setStyleUrl_run _ _ _ _ _ _ _ _ url Hv). cbn [snd].
    erewrite MapRenderer_setCamera_run;
      [|apply V; [done..|cbn; apply lookup_insert_eq]]. cbn [snd].
    erewrite MapRenderer_setDebugFlags_run;
      [|apply V; [done..|cbn; apply lookup_insert_eq]]. cbn [snd].
    split; [|done]. apply V; [done..|]. cbn. apply lookup_insert_eq. }
  destruct H3 as [H3 He]. split; [exact H3|].
  rewrite (MapRenderer_render_run _ _ _ _ _ _ _ _ _ _ H3). rewrite He.
  destruct (fst (render_pass f m3 (env w))) as [e|res]; [done|].
  cbn. destruct (encodePNG (image res)); done.
Qed.

(** X5: on each of the three mutators the last call wins: two calls in
    a row leave the state the second call alone would have left.  For the
    camera this holds because the bridge sets all four components on every
    call. *)
Theorem last_call_wins w self r f m :
  instance_view w self = Some (r, f, m) ->
  (forall d d',
     same_state (snd (setDebugFlags self d' w))
       (snd (setDebugFlags self d' (snd (setDebugFlags self d w)))))
  /\ (forall lat lon zoom bearing pitch lat' lon' zoom' bearing' pitch',
        same_state (snd (setCamera self lat' lon' zoom' bearing' pitch' w))
          (snd (setCamera self lat' lon' zoom' bearing' pitch'
                  (snd (setCamera self lat lon zoom bearing pitch w)))))
  /\ (forall url url',
        same_state (snd (setStyleUrl self url' w))
          (snd (setStyleUrl self url' (snd (setStyleUrl self url w))))).
Proof.
  intros Hv. pose proof Hv as Hv0.
  apply instance_view_Some in Hv0. destruct Hv0 as (Hr & Hf & Hm).
  assert (V : forall (w' : World) m',
            renderers w' = renderers w -> frontends w' = frontends w ->
            maps w' !! map r = Some m' -> instance_view w' self = Some (r, f, m')).
  { intros w' m' E1 E2 E3. apply instance_view_Some. by rewrite E1, E2. }
  split; [|split].
  - intros d d'.
    rewrite (MapRenderer_setDebugFlags_run _ _ _ _ _ _ _ _ d Hv).
    rewrite (MapRenderer_setDebugFlags_run _ _ _ _ _ _ _ _ d' Hv). cbn [snd].
    erewrite MapRenderer_setDebugFlags_run;
      [|apply V; [done..|cbn; apply lookup_insert_eq]].
    unfold same_state. cbn. by rewrite insert_insert_eq.
  - intros lat lon zoom bearing pitch lat' lon' zoom' bearing' pitch'.
    rewrite (MapRenderer_setCamera_run _ _ _ _ _ _ _ _ lat lon zoom bearing
               pitch Hv).
    rewrite (MapRenderer_setCamera_run _ _ _ _ _ _ _ _ lat' lon' zoom' bearing'
               pitch' Hv). cbn [snd].
    erewrite MapRenderer_setCamera_run;
      [|apply V; [done..|cbn; apply lookup_insert_eq]].
    unfold same_state. cbn. by rewrite insert_insert_eq.
  - intros url url'.
    rewrite (MapRenderer_setStyleUrl_run _ _ _ _ _ _ _ _ url Hv).
    rewrite (MapRenderer_setStyleUrl_run _ _ _ _ _ _ _ _ url' Hv). cbn [snd].
    erewrite MapRenderer_setStyleUrl_run;
      [|apply V; [done..|cbn; apply lookup_insert_eq]].
    unfold same_state. cbn. by rewrite insert_insert_eq.
Qed.

(** X6: the three mutators act on separate components of the map,
    so two different ones may be called in either order: the state is the
    same. *)
Theorem different_mutators_commute w self r f m
    d lat lon zoom bearing pitch url :
  instance_view w self = Some (r, f, m) ->
  same_state
    (snd (setCamera self lat lon zoom bearing pitch (snd (setDebugFlags self d w))))
    (snd (setDebugFlags self d (snd (setCamera self lat lon zoom bearing pitch w))))
  /\ same_state
       (snd (setStyleUrl self url (snd (setDebugFlags self d w))))
       (snd (setDebugFlags self d (snd (setStyleUrl self url w))))
  /\ same_state
       (snd (setStyleUrl self url (snd (setCamera self lat lon zoom bearing pitch w))))
       (snd (setCamera self lat lon zoom bearing pitch (snd (setStyleUrl self url w)))).
Proof.
  intros Hv. pose proof Hv as Hv0.
  apply instance_view_Some in Hv0. destruct Hv0 as (Hr & Hf & Hm).
  assert (V : forall (w' : World) m',
            renderers w' = renderers w -> frontends w' = frontends w ->
            maps w' !! map r = Some m' -> instance_view w' self = Some (r, f, m')).
  { intros w' m' E1 E2 E3. apply instance_view_Some. by rewrite E1, E2. }
  rewrite (MapRenderer_setDebugFlags_run _ _ _ _ _ _ _ _ d Hv).
  rewrite (MapRenderer_setCamera_run _ _ _ _ _ _ _ _ lat lon zoom bearing pitch Hv).
  rewrite (MapRenderer_setStyleUrl_run _ _ _ _ _ _ _ _ url Hv).
  cbn [snd].
  repeat (erewrite MapRenderer_setDebugFlags_run;
            [|apply V; [done..|cbn; apply lookup_insert_eq]]).
  repeat (erewrite MapRenderer_setCamera_run;
            [|apply V; [done..|cbn; apply lookup_insert_eq]]).
  repeat (erewrite MapRenderer_setStyleUrl_run;
            [|apply V; [done..|cbn; apply lookup_insert_eq]]).
  unfold same_state. cbn. rewrite !insert_insert_eq. done.
Qed.

(** ** Construction and release *)


Section FromConstruction.

Variables (mapMode : MapMode) (width height : uint32_t) (pixelRatio : float).
Variables cachePath assetRoot apiKey baseUrl uriSchemeAlias apiKeyParameterName
          sourceTemplate styleTemplate spritesTemplate glyphsTemplate tileTemplate
          defaultStyleUrl : string.
Variable requiresApiKey : bool.

Local Abbreviation made w :=
  (new mapMode width height pixelRatio cachePath assetRoot apiKey
     baseUrl uriSchemeAlias apiKeyParameterName sourceTemplate styleTemplate
     spritesTemplate glyphsTemplate tileTemplate defaultStyleUrl requiresApiKey w)
  (only parsing).

(** What a construction that returned has stored. *)
Lemma made_returned w w1 self :
  made w = (Returned self, w1) ->
  let fe := fresh (dom (frontends w)) in
  let mp := fresh (dom (maps w)) in
  renderers w !! self = None
  /\ (exists f, frontends w1 = <[fe := f]> (frontends w))
  /\ (exists m, maps w1 = <[mp := m]> (maps w))
  /\ renderers w1 =
       <[self := {| runLoop := RunLoop_default; frontend := fe; map := mp |}]>
         (renderers w).
Proof.
  intros Hnew fe mp.
  assert (H1 : fst (made w) = Returned self) by (by rewrite Hnew).
  assert (H2 : snd (made w) = w1) by (by rewrite Hnew).
  clear Hnew. rewrite <- H2. clear H2. revert H1.
  rewrite MapRenderer_new_run.
  destruct (frontend_fault _ _ _); [discriminate|].
  destruct (map_fault _ _ _); [discriminate|].
  destruct (runloop_fault _); [discriminate|].
  cbn. intros [= <-]. split; [apply fresh_lookup|]. eauto.
Qed.

(** X7: the instance, and with it the run loop, is constructed last.
    When that fails after the frontend and the map were made, the call
    throws that failure, the engine has seen the three constructor calls in
    that order, and both the map and the frontend are released again: the
    stores are as before the call. *)
Theorem run_loop_failure_releases_both w e :
  frontend_fault {| size_width := width; size_height := height |} pixelRatio
    (env w) = None ->
  map_fault
    (map_options mapMode {| size_width := width; size_height := height |} pixelRatio)
    (resource_options cachePath assetRoot apiKey
       (tile_server_options baseUrl uriSchemeAlias apiKeyParameterName
          sourceTemplate styleTemplate spritesTemplate glyphsTemplate
          tileTemplate defaultStyleUrl requiresApiKey))
    (env w) = None ->
  runloop_fault (env w) = Some e ->
  fst (made w) = Thrown e
  /\ same_state w (snd (made w))
  /\ exists fe mo ro,
       calls (snd (made w)) =
         calls w ++
         [ Call_HeadlessFrontend PremultipliedImage
             {| size_width := width; size_height := height |} pixelRatio;
           Call_Map PremultipliedImage fe nullObserver mo ro;
           Call_RunLoop PremultipliedImage ].
Proof.
  intros E1 E2 E3. rewrite MapRenderer_new_run, E1, E2, E3. cbn.
  split; [done|]. split; [done|]. by eexists _, _, _.
Qed.

(** X2: in a sound world, an instance that [MapRenderer_new] returned
    stays usable until it is released: after any events other than its own
    release (calls on it, calls on other instances, constructions, releases
    of others, returning or throwing), it is still there with a frontend and
    a map bound to that frontend, a render on it is never undefined, and the
    three mutators return. *)
Theorem instance_stays_usable w w1 self (es : list Event) :
  sound w ->
  made w = (Returned self, w1) ->
  Forall (fun e => e <> Release self) es ->
  let w2 := life_run es w1 in
  (exists r f m,
     instance_view w2 self = Some (r, f, m) /\ map_frontend m = frontend r)
  /\ fst (render self w2) <> Undefined
  /\ (forall d, fst (setDebugFlags self d w2) = Returned tt)
  /\ (forall lat lon zoom bearing pitch,
        fst (setCamera self lat lon zoom bearing pitch w2) = Returned tt)
  /\ (forall url, fst (setStyleUrl self url w2) = Returned tt).
Proof.
  intros Hs Hnew Hes w2.
  assert (Hs1 : sound w1).
  { replace w1 with (snd (made w)) by (by rewrite Hnew). by apply sound_new. }
  assert (Hr1 : exists r, renderers w1 !! self = Some r).
  { destruct (made_returned _ _ _ Hnew) as (_ & _ & _ & ->).
    rewrite lookup_insert_eq. eauto. }
  destruct Hr1 as [r Hr1].
  assert (Hr2 : renderers w2 !! self = Some r).
  { subst w2. clear Hnew Hs1. revert w1 Hr1.
    induction Hes as [|e es He Hes IH]; intros w1 Hr1; cbn; [done|].
    apply IH. by apply renderer_persists. }
  assert (Hs2 : sound w2) by (by apply sound_life_run).
  destruct (sound_view _ _ _ Hs2 Hr2) as (f & m & Hv & Hb).
  split; [by exists r, f, m|].
  split.
  - rewrite (MapRenderer_render_run _ _ _ _ _ _ _ _ _ _ Hv).
    destruct (fst (render_pass f m (env w2))) as [e|res]; [done|].
    cbn. destruct (encodePNG (image res)); done.
  - split; [|split]; intros.
    + by rewrite (MapRenderer_setDebugFlags_run _ _ _ _ _ _ _ _ _ Hv).
    + by rewrite (MapRenderer_setCamera_run _ _ _ _ _ _ _ _ _ _ _ _ _ Hv).
    + by rewrite (MapRenderer_setStyleUrl_run _ _ _ _ _ _ _ _ _ Hv).
Qed.

(** X8: construction, then any calls on the new instance, then its
    release: the three stores are what they were before the construction.
    Nothing the instance owned is left behind. *)
Theorem release_undoes_construction w w1 self (os : list Op) :
  made w = (Returned self, w1) ->
  Forall (fun o => target (Bridge_call o) = Some self) os ->
  let w2 := fold_left (fun w o => step o w) os w1 in
  fst (MapRenderer_delete self w2) = Returned tt
  /\ frontends (snd (MapRenderer_delete self w2)) = frontends w
  /\ maps (snd (MapRenderer_delete self w2)) = maps w
  /\ renderers (snd (MapRenderer_delete self w2)) = renderers w.
Proof.
  intros Hnew Hos w2.
  set (fe := fresh (dom (frontends w))).
  set (mp := fresh (dom (maps w))).
  set (r := {| runLoop := RunLoop_default; frontend := fe; map := mp |}).
  assert (I1 : (exists f, frontends w1 = <[fe := f]> (frontends w))
               /\ (exists m, maps w1 = <[mp := m]> (maps w))
               /\ renderers w1 = <[self := r]> (renderers w)
               /\ renderers w !! self = None).
  { destruct (made_returned _ _ _ Hnew) as (A & B & C & D). done. }
  assert (I2 : (exists f, frontends w2 = <[fe := f]> (frontends w))
               /\ (exists m, maps w2 = <[mp := m]> (maps w))
               /\ renderers w2 = <[self := r]> (renderers w)).
  { destruct I1 as (F1 & M1 & R1 & _). subst w2. clear Hnew.
    revert w1 F1 M1 R1.
    induction Hos as [|o os Ho Hos IH]; intros w1 F1 M1 R1; cbn; [done|].
    destruct F1 as [f Hf], M1 as [m Hm].
    assert (Hv : instance_view w1 self = Some (r, f, m)).
    { apply instance_view_Some. rewrite R1, Hf, Hm. cbn.
      by rewrite !lookup_insert_eq. }
    destruct o as [a|a|a d|a lat lon zoom bearing pitch|a url];
      cbn in Ho; try discriminate; injection Ho as ->; apply IH; clear IH; cbn.
    - destruct (MapRenderer_render_reads_only Env exception PremultipliedImage
                  render_pass encodePNG w1 self) as (-> & _ & _). eauto.
    - destruct (MapRenderer_render_reads_only Env exception PremultipliedImage
                  render_pass encodePNG w1 self) as (_ & -> & _). eauto.
    - by destruct (MapRenderer_render_reads_only Env exception PremultipliedImage
                     render_pass encodePNG w1 self) as (_ & _ & ->).
    - rewrite (MapRenderer_setDebugFlags_run _ _ _ _ _ _ _ _ d Hv). eauto.
    - rewrite (MapRenderer_setDebugFlags_run _ _ _ _ _ _ _ _ d Hv). cbn.
      rewrite Hm, insert_insert_eq. eauto.
    - by rewrite (MapRenderer_setDebugFlags_run _ _ _ _ _ _ _ _ d Hv).
    - rewrite (MapRenderer_setCamera_run _ _ _ _ _ _ _ _ lat lon zoom bearing
                 pitch Hv). eauto.
    - rewrite (MapRenderer_setCamera_run _ _ _ _ _ _ _ _ lat lon zoom bearing
                 pitch Hv). cbn.
      rewrite Hm, insert_insert_eq. eauto.
    - by rewrite (MapRenderer_setCamera_run _ _ _ _ _ _ _ _ lat lon zoom bearing
                    pitch Hv).
    - rewrite (MapRenderer_setStyleUrl_run _ _ _ _ _ _ _ _ url Hv). eauto.
    - rewrite (MapRenderer_setStyleUrl_run _ _ _ _ _ _ _ _ url Hv). cbn.
      rewrite Hm, insert_insert_eq. eauto.
    - by rewrite (MapRenderer_setStyleUrl_run _ _ _ _ _ _ _ _ url Hv). }
  destruct I1 as (_ & _ & _ & Fs). destruct I2 as ([f Hf] & [m Hm] & R2).
  assert (Hr : renderers w2 !! self = Some r) by (by rewrite R2, lookup_insert_eq).
  rewrite (MapRenderer_delete_run _ _ _ Hr). cbn.
  rewrite Hf, Hm, R2. split; [done|].
  rewrite !delete_insert_id; [done|done|apply fresh_lookup|apply fresh_lookup].
Qed.

End FromConstruction.

End Lifecycle.


Arguments sound {Env PremultipliedImage} w.
Arguments same_state {Env PremultipliedImage} w w'.
Arguments same_shape {Env PremultipliedImage} w w'.
Arguments no_dangling_binding {Env PremultipliedImage} w.
Arguments bindings {Env PremultipliedImage} w.

(** ** The life of instances on the concrete engine *)

Module DemoLife.

Definition delete := MapRenderer_delete Demo.Env Demo.exception Demo.PremultipliedImage.

Definition life_step :=
  life_step Demo.Env Demo.exception Demo.PremultipliedImage
    Demo.frontend_fault Demo.map_fault Demo.runloop_fault
    Demo.initial_camera Demo.initial_debug Demo.initial_style
    Demo.render_pass Demo.encodePNG.

Definition life_run :=
  life_run Demo.Env Demo.exception Demo.PremultipliedImage
    Demo.frontend_fault Demo.map_fault Demo.runloop_fault
    Demo.initial_camera Demo.initial_debug Demo.initial_style
    Demo.render_pass Demo.encodePNG.

Definition step :=
  step Demo.Env Demo.exception Demo.PremultipliedImage
    Demo.frontend_fault Demo.map_fault Demo.runloop_fault
    Demo.initial_camera Demo.initial_debug Demo.initial_style
    Demo.render_pass Demo.encodePNG.

(** The arguments of [Demo.new]. *)
Definition args (width height : uint32_t) : CtorArgs :=
  {| a_mapMode := Static; a_width := width; a_height := height;
     a_pixelRatio := Mo.one;
     a_cachePath := "/var/cache/tiles"; a_assetRoot := "/usr/share/assets";
     a_apiKey := "secret"; a_baseUrl := "https://tiles.example.org";
     a_uriSchemeAlias := "example"; a_apiKeyParameterName := "key";
     a_sourceTemplate := "/tiles/{id}.json";
     a_styleTemplate := "/maps/{id}/style.json";
     a_spritesTemplate := "/maps/{id}/sprite";
     a_glyphsTemplate := "/fonts/{fontstack}/{range}.pbf";
     a_tileTemplate := "/tiles/{z}/{x}/{y}";
     a_defaultStyleUrl := "https://tiles.example.org/maps/basic/style.json";
     a_requiresApiKey := true |}.

Definition style : string := "https://tiles.example.org/maps/basic/style.json".

(** Two instances: the 512 x 512 one of [Demo.world1] and a 256 x 128 one. *)
Definition world3 : Demo.World := snd (Demo.new 256 128 Demo.world1).

(** An engine on which no run loop can be made. *)
Definition no_run_loop (_ : Demo.Env) : option Demo.exception := Some "no run loop".

Definition new_without_loop (width height : uint32_t) :=
  MapRenderer_new Demo.Env Demo.exception Demo.PremultipliedImage
    Demo.frontend_fault Demo.map_fault no_run_loop
    Demo.initial_camera Demo.initial_debug Demo.initial_style
    Static width height Mo.one
    "/var/cache/tiles" "/usr/share/assets" "secret"
    "https://tiles.example.org" "example" "key"
    "/tiles/{id}.json" "/maps/{id}/style.json" "/maps/{id}/sprite"
    "/fonts/{fontstack}/{range}.pbf" "/tiles/{z}/{x}/{y}"
    "https://tiles.example.org/maps/basic/style.json" true.

End DemoLife.

Lemma Demo_world0_sound : sound Demo.world0.
Proof. by apply sound_empty. Qed.

Lemma Demo_world1_sound : sound Demo.world1.
Proof. apply sound_new, Demo_world0_sound. Qed.

Lemma Demo_world3_sound : sound DemoLife.world3.
Proof. apply sound_new, Demo_world1_sound. Qed.

Lemma Demo_new1 : Demo.new 512 512 Demo.world0 = (Returned 1%positive, Demo.world1).
Proof. vm_compute. reflexivity. Qed.

(** Two constructions, calls on both, a release, a third construction, the
    release of a pointer that is no instance. *)
Lemma sound_for_life_witness :
  sound Demo.world0
  /\ sound
       (DemoLife.life_run
          [ Bridge_call (Op_new (DemoLife.args 512 512));
            Bridge_call (Op_new (DemoLife.args 256 128));
            Bridge_call (Op_setStyleUrl 1 DemoLife.style);
            Bridge_call (Op_render 1);
            Bridge_call (Op_render 2);
            Release 1;
            Bridge_call (Op_new (DemoLife.args 0 64));
            Bridge_call (Op_new (DemoLife.args 64 64));
            Release 7 ]
          Demo.world0).
Proof.
  split; [exact Demo_world0_sound|].
  apply (sound_for_life Demo.Env Demo.exception Demo.PremultipliedImage
           Demo.frontend_fault Demo.map_fault Demo.runloop_fault
           Demo.initial_camera Demo.initial_debug Demo.initial_style
           Demo.render_pass Demo.encodePNG _ Demo.world0 Demo_world0_sound).
Defined.

(** The first instance outlives a second one and is rendered after it. *)
Lemma instance_stays_usable_witness :
  sound Demo.world0
  /\ Demo.new 512 512 Demo.world0 = (Returned 1%positive, Demo.world1)
  /\ fst (Demo.render 1
            (DemoLife.life_run
               [ Bridge_call (Op_new (DemoLife.args 256 128));
                 Bridge_call (Op_setDebugFlags 2 6);
                 Release 2;
                 Bridge_call (Op_render 1) ]
               Demo.world1)) <> Undefined.
Proof.
  split; [exact Demo_world0_sound|]. split; [exact Demo_new1|].
  apply (instance_stays_usable Demo.Env Demo.exception Demo.PremultipliedImage
           Demo.frontend_fault Demo.map_fault Demo.runloop_fault
           Demo.initial_camera Demo.initial_debug Demo.initial_style
           Demo.render_pass Demo.encodePNG
           Static 512 512 Mo.one
           "/var/cache/tiles" "/usr/share/assets" "secret"
           "https://tiles.example.org" "example" "key"
           "/tiles/{id}.json" "/maps/{id}/style.json" "/maps/{id}/sprite"
           "/fonts/{fontstack}/{range}.pbf" "/tiles/{z}/{x}/{y}"
           "https://tiles.example.org/maps/basic/style.json" true
           Demo.world0 Demo.world1 1
           [ Bridge_call (Op_new (DemoLife.args 256 128));
             Bridge_call (Op_setDebugFlags 2 6);
             Release 2;
             Bridge_call (Op_render 1) ]
           Demo_world0_sound Demo_new1).
  repeat constructor; discriminate.
Defined.

(** With two instances, releasing the second leaves the first as it was. *)
Lemma events_leave_other_instances_alone_witness :
  sound DemoLife.world3
  /\ renderers DemoLife.world3 !! 1%positive = Some Demo.r1
  /\ instance_view (DemoLife.life_step (Release 2) DemoLife.world3) 1
     = instance_view DemoLife.world3 1.
Proof.
  assert (H : renderers DemoLife.world3 !! 1%positive = Some Demo.r1)
    by (vm_compute; reflexivity).
  split; [exact Demo_world3_sound|]. split; [exact H|].
  apply (events_leave_other_instances_alone Demo.Env Demo.exception
           Demo.PremultipliedImage Demo.frontend_fault Demo.map_fault
           Demo.runloop_fault Demo.initial_camera Demo.initial_debug
           Demo.initial_style Demo.render_pass Demo.encodePNG
           (Release 2) DemoLife.world3 1 Demo.r1 Demo_world3_sound H).
  discriminate.
Defined.

(** Style, camera, tile borders and collision boxes (2 + 16), then render:
    the frame shows the flags. *)
Lemma render_sees_the_latest_state_witness :
  instance_view Demo.world1 1 = Some (Demo.r1, Demo.f1, Demo.m1)
  /\ fst (Demo.render 1
            (snd (Demo.setDebugFlags 1 18
                    (snd (Demo.setCamera 1 Demo.zero Demo.zero
                            (S754_finite false 1 1) Demo.zero Demo.zero
                            (snd (Demo.setStyleUrl 1 DemoLife.style Demo.world1)))))))
     = Returned "PNG 512 512 18".
Proof.
  split; [exact Demo_view1|].
  destruct (render_sees_the_latest_state Demo.Env Demo.exception
              Demo.PremultipliedImage Demo.render_pass Demo.encodePNG
              Demo.world1 1 Demo.r1 Demo.f1 Demo.m1 DemoLife.style
              Demo.zero Demo.zero (S754_finite false 1 1) Demo.zero Demo.zero
              18%N Demo_view1) as [_ E].
  unfold Demo.render, Demo.setDebugFlags, Demo.setCamera, Demo.setStyleUrl.
  rewrite E. reflexivity.
Defined.

Lemma last_call_wins_witness :
  instance_view Demo.world1 1 = Some (Demo.r1, Demo.f1, Demo.m1)
  /\ same_state (snd (Demo.setStyleUrl 1 "b" Demo.world1))
       (snd (Demo.setStyleUrl 1 "b" (snd (Demo.setStyleUrl 1 "a" Demo.world1)))).
Proof.
  split; [exact Demo_view1|].
  apply (last_call_wins Demo.Env Demo.exception Demo.PremultipliedImage
           Demo.world1 1 Demo.r1 Demo.f1 Demo.m1 Demo_view1).
Defined.

Lemma different_mutators_commute_witness :
  instance_view Demo.world1 1 = Some (Demo.r1, Demo.f1, Demo.m1)
  /\ same_state
       (snd (Demo.setStyleUrl 1 DemoLife.style (snd (Demo.setDebugFlags 1 2 Demo.world1))))
       (snd (Demo.setDebugFlags 1 2 (snd (Demo.setStyleUrl 1 DemoLife.style Demo.world1)))).
Proof.
  split; [exact Demo_view1|].
  apply (different_mutators_commute Demo.Env Demo.exception
           Demo.PremultipliedImage Demo.world1 1 Demo.r1 Demo.f1 Demo.m1
           2%N Demo.zero Demo.zero Demo.zero Demo.zero Demo.zero DemoLife.style
           Demo_view1).
Defined.

(** A second instance cannot get its run loop: the first instance's world
    has the same stores after the failed call. *)
Lemma run_loop_failure_releases_both_witness :
  DemoLife.no_run_loop (env Demo.world1) = Some "no run loop"
  /\ fst (DemoLife.new_without_loop 256 128 Demo.world1) = Thrown "no run loop"
  /\ same_state Demo.world1 (snd (DemoLife.new_without_loop 256 128 Demo.world1)).
Proof.
  split; [reflexivity|].
  destruct (run_loop_failure_releases_both Demo.Env Demo.exception
              Demo.PremultipliedImage Demo.frontend_fault Demo.map_fault
              DemoLife.no_run_loop Demo.initial_camera Demo.initial_debug
              Demo.initial_style Static 256 128 Mo.one
              "/var/cache/tiles" "/usr/share/assets" "secret"
              "https://tiles.example.org" "example" "key"
              "/tiles/{id}.json" "/maps/{id}/style.json" "/maps/{id}/sprite"
              "/fonts/{fontstack}/{range}.pbf" "/tiles/{z}/{x}/{y}"
              "https://tiles.example.org/maps/basic/style.json" true
              Demo.world1 "no run loop" eq_refl eq_refl eq_refl) as (A & B & _).
  split; [exact A|exact B].
Defined.

(** Make, set a style, render, set flags, release: nothing is left. *)
Lemma release_undoes_construction_witness :
  Demo.new 512 512 Demo.world0 = (Returned 1%positive, Demo.world1)
  /\ maps (snd (DemoLife.delete 1
                  (fold_left (fun w o => DemoLife.step o w)
                     [ Op_setStyleUrl 1 DemoLife.style; Op_render 1;
                       Op_setDebugFlags 1 2 ]
                     Demo.world1))) = maps Demo.world0.
Proof.
  split; [exact Demo_new1|].
  apply (release_undoes_construction Demo.Env Demo.exception
           Demo.PremultipliedImage Demo.frontend_fault Demo.map_fault
           Demo.runloop_fault Demo.initial_camera Demo.initial_debug
           Demo.initial_style Demo.render_pass Demo.encodePNG
           Static 512 512 Mo.one
           "/var/cache/tiles" "/usr/share/assets" "secret"
           "https://tiles.example.org" "example" "key"
           "/tiles/{id}.json" "/maps/{id}/style.json" "/maps/{id}/sprite"
           "/fonts/{fontstack}/{range}.pbf" "/tiles/{z}/{x}/{y}"
           "https://tiles.example.org/maps/basic/style.json" true
           Demo.world0 Demo.world1 1
           [ Op_setStyleUrl 1 DemoLife.style; Op_render 1; Op_setDebugFlags 1 2 ]
           Demo_new1).
  repeat constructor.
Defined.


(** * Rendering twice *)

Section RenderTwice.

Variables Env exception PremultipliedImage : Type.
Variable render_pass :
  HeadlessFrontend -> Map -> Env -> (exception + RenderResult PremultipliedImage) * Env.
Variable encodePNG : PremultipliedImage -> exception + string.

Local Abbreviation World := (World Env PremultipliedImage).
Local Abbreviation render :=
  (MapRenderer_render Env exception PremultipliedImage render_pass encodePNG).

(** Modelled from the spec: "a fully loaded style" is a state of the
    engine, which is not in the source.  The style of a map is fully loaded
    in an environment when nothing is left to arrive that would change the
    frame: the pass that follows a pass yields what that pass yielded. *)
Definition fully_loaded (f : HeadlessFrontend) (m : Map) (e : Env) : Prop :=
  fst (render_pass f m (snd (render_pass f m e))) = fst (render_pass f m e).

(** What a render call leaves of the environment is what its pass left. *)
Lemma render_env w self r f m :
  instance_view w self = Some (r, f, m) ->
  env (snd (render self w)) = snd (render_pass f m (env w)).
Proof.
  intros H. rewrite (MapRenderer_render_run _ _ _ _ _ _ _ _ _ _ H).
  destruct (fst (render_pass f m (env w))) as [e|res]; [done|].
  cbn. destruct (encodePNG (image res)); done.
Qed.

(** What a render call returns or throws, read off its pass. *)
Lemma render_outcome w self r f m :
  instance_view w self = Some (r, f, m) ->
  fst (render self w) =
    match fst (render_pass f m (env w)) with
    | inl e => Thrown e
    | inr res =>
        match encodePNG (image res) with
        | inl e => Thrown e
        | inr png => Returned png
        end
    end.
Proof.
  intros H. rewrite (MapRenderer_render_run _ _ _ _ _ _ _ _ _ _ H).
  destruct (fst (render_pass f m (env w))) as [e|res]; [done|].
  cbn. destruct (encodePNG (image res)); done.
Qed.

(** C9: on a live instance whose style is fully loaded, a second
    [MapRenderer_render] right after a first one, with no call in between,
    comes out as the first did: the same bytes when the first returned, the
    same exception when it threw.  The bridge keeps nothing between the two
    calls: the second pass is run on the same frontend and the same map. *)
Theorem render_twice_same_bytes w self r f m :
  instance_view w self = Some (r, f, m) ->
  fully_loaded f m (env w) ->
  instance_view (snd (render self w)) self = Some (r, f, m)
  /\ fst (render self (snd (render self w))) = fst (render self w).
Proof.
  intros Hv Hl.
  assert (Hv' : instance_view (snd (render self w)) self = Some (r, f, m)).
  { destruct (MapRenderer_render_reads_only Env exception PremultipliedImage
                render_pass encodePNG w self) as (A & B & C).
    apply instance_view_Some in Hv. apply instance_view_Some.
    by rewrite A, B, C. }
  split; [exact Hv'|].
  rewrite (render_outcome _ _ _ _ _ Hv'), (render_outcome _ _ _ _ _ Hv).
  rewrite (render_env _ _ _ _ _ Hv). unfold fully_loaded in Hl. by rewrite Hl.
Qed.

End RenderTwice.

Arguments fully_loaded {Env exception PremultipliedImage} render_pass f m e.

Module DemoLoading.

(** An engine still loading: every pass shows one more tile than the pass
    before it. *)
Definition render_pass (f : HeadlessFrontend) (m : Map) (e : Demo.Env)
    : (Demo.exception + RenderResult Demo.PremultipliedImage) * Demo.Env :=
  (inr {| image := [N.of_nat e] |}, S e).

Definition render :=
  MapRenderer_render Demo.Env Demo.exception Demo.PremultipliedImage
    render_pass Demo.encodePNG.

End DemoLoading.

(** While the engine is still loading, two renders in a row differ. *)
Example render_twice_differs_while_loading :
  fst (DemoLoading.render 1 Demo.world2) = Returned "PNG 0"
  /\ fst (DemoLoading.render 1 (snd (DemoLoading.render 1 Demo.world2)))
     = Returned "PNG 1"
  /\ ~ fully_loaded DemoLoading.render_pass Demo.f1 Demo.m2 (env Demo.world2).
Proof. split; [|split]; [vm_compute; reflexivity..|]. vm_compute. discriminate. Qed.

(** On the concrete engine the frame does not depend on the frames rendered
    before: the second render returns the bytes of the first. *)
Lemma render_twice_same_bytes_witness :
  instance_view Demo.world2 1 = Some (Demo.r1, Demo.f1, Demo.m2)
  /\ fully_loaded Demo.render_pass Demo.f1 Demo.m2 (env Demo.world2)
  /\ fst (Demo.render 1 (snd (Demo.render 1 Demo.world2)))
     = fst (Demo.render 1 Demo.world2)
  /\ fst (Demo.render 1 Demo.world2) = Returned "PNG 512 512 0".
Proof.
  assert (L : fully_loaded Demo.render_pass Demo.f1 Demo.m2 (env Demo.world2))
    by reflexivity.
  split; [exact Demo_view2|]. split; [exact L|].
  split; [|vm_compute; reflexivity].
  apply (render_twice_same_bytes Demo.Env Demo.exception Demo.PremultipliedImage
           Demo.render_pass Demo.encodePNG Demo.world2 1 Demo.r1 Demo.f1 Demo.m2
           Demo_view2 L).
Defined.
